(** * Access check of the permissions layer: [userHasScopes]

    Shallow embedding of [packages/cli/src/permissions.ee/check-access.ts].

    The function is [async]: it awaits at most two repository reads
    ([SharedWorkflowRepository.findOneBy] and
    [SharedCredentialsRepository.findOneBy]) and either resolves to a
    boolean or rejects with an [UnexpectedError].  The embedding keeps the
    reads as nodes of a small promise tree, so that a statement can speak
    about which reads were performed, and interprets the tree against the
    content of the two repositories. *)

From Stdlib Require Import String List Bool Arith Lia.
From ExtLib Require Import Structures.Monad.
Import ListNotations.
Import MonadNotation.

Local Open Scope string_scope.
Local Open Scope monad_scope.

(** ** JavaScript values the function tests *)

Module Js.

(** An optional string property: [undefined] is [None]. *)
Definition optString := option string.

(** Truthiness of a [string | undefined]: [undefined] and the empty
    string are falsy, every other string is truthy. *)
Definition truthy (v : optString) : bool :=
  match v with
  | Some s => negb (s =? "")
  | None => false
  end.

(** The string behind a value that was tested truthy. *)
Definition valueOf (v : optString) : string :=
  match v with
  | Some s => s
  | None => ""
  end.

(** [Array.prototype.includes] on strings (strict equality). *)
Definition includes (l : list string) (x : string) : bool :=
  existsb (String.eqb x) l.

End Js.

(** ** Data model ([@n8n/db], [@n8n/permissions]) *)

Definition Scope := string.

Inductive ScopeMode := oneOf | allOf.

Record ScopeOptions := { mode : ScopeMode }.

(** An entry of [User.projectRoles]. *)
Module ProjectRole.
Record t := { projectId : string; role : string }.
End ProjectRole.

(** The user as the check reads it: the global role and the nullable
    [projectRoles] json column. *)
Module User.
Record t := {
  id : string;
  role : string;
  projectRoles : option (list ProjectRole.t)
}.
End User.

Module SharedWorkflow.
Record t := { workflowId : string; projectId : string }.
End SharedWorkflow.

Module SharedCredentials.
Record t := { credentialsId : string; projectId : string }.
End SharedCredentials.

(** The last argument of [userHasScopes]. *)
Record ResourceIds := {
  credentialId : Js.optString;
  workflowId : Js.optString;
  projectId : Js.optString
}.

Inductive Error := UnexpectedError (message : string).

(** ** Promises: a computation that awaits repository reads *)

Inductive Promise (A : Type) : Type :=
| Resolved (a : A)
| Rejected (e : Error)
| SharedWorkflow_findOneBy
    (workflowId : string) (k : option SharedWorkflow.t -> Promise A)
| SharedCredentials_findOneBy
    (credentialsId : string) (k : option SharedCredentials.t -> Promise A).

Arguments Resolved {A} a.
Arguments Rejected {A} e.
Arguments SharedWorkflow_findOneBy {A} workflowId k.
Arguments SharedCredentials_findOneBy {A} credentialsId k.

Fixpoint andThen {A B} (p : Promise A) (f : A -> Promise B) : Promise B :=
  match p with
  | Resolved a => f a
  | Rejected e => Rejected e
  | SharedWorkflow_findOneBy w k =>
      SharedWorkflow_findOneBy w (fun r => andThen (k r) f)
  | SharedCredentials_findOneBy c k =>
      SharedCredentials_findOneBy c (fun r => andThen (k r) f)
  end.

#[export] Instance Monad_Promise : Monad Promise :=
  {| ret := @Resolved; bind := @andThen |}.

(** [await Container.get(SharedWorkflowRepository).findOneBy({ workflowId })] *)
Definition findSharedWorkflow (workflowId : string)
  : Promise (option SharedWorkflow.t) :=
  SharedWorkflow_findOneBy workflowId Resolved.

(** [await Container.get(SharedCredentialsRepository).findOneBy({ credentialsId })] *)
Definition findSharedCredentials (credentialsId : string)
  : Promise (option SharedCredentials.t) :=
  SharedCredentials_findOneBy credentialsId Resolved.

(** What the two repositories answer to a single-key read. *)
Record Repositories := {
  sharedWorkflows : string -> option SharedWorkflow.t;
  sharedCredentials : string -> option SharedCredentials.t
}.

(** A read that was performed, with its key. *)
Inductive Read :=
| ReadSharedWorkflow (workflowId : string)
| ReadSharedCredentials (credentialsId : string).

(** How a promise settles. *)
Inductive Settled (A : Type) : Type :=
| Fulfilled (a : A)
| Failed (e : Error).

Arguments Fulfilled {A} a.
Arguments Failed {A} e.

(** Runs a promise against the repositories: the reads performed, in
    order, and the settlement. *)
Fixpoint run {A} (db : Repositories) (p : Promise A) : list Read * Settled A :=
  match p with
  | Resolved a => ([], Fulfilled a)
  | Rejected e => ([], Failed e)
  | SharedWorkflow_findOneBy w k =>
      let (reads, s) := run db (k (sharedWorkflows db w)) in
      (ReadSharedWorkflow w :: reads, s)
  | SharedCredentials_findOneBy c k =>
      let (reads, s) := run db (k (sharedCredentials db c)) in
      (ReadSharedCredentials c :: reads, s)
  end.

Definition reads {A} (db : Repositories) (p : Promise A) : list Read :=
  fst (run db p).

Definition settlement {A} (db : Repositories) (p : Promise A) : Settled A :=
  snd (run db p).

(** ** check-access.ts *)

Definition missingIdMessage : string :=
  "`@ProjectScope` decorator was used but does not have a `credentialId`, `workflowId`, or `projectId` in its URL parameters, or the user does not have the required role in the project.".

(** The option of line 27: [{ mode: 'allOf' }]. *)
Definition allOfMode : ScopeOptions := {| mode := allOf |}.

(** The test of line 112: [projectId || workflowId || credentialId]. *)
Definition anyIdTruthy (ids : ResourceIds) : bool :=
  Js.truthy (projectId ids) || Js.truthy (workflowId ids)
  || Js.truthy (credentialId ids).

(** The error of line 118. *)
Definition configurationError : Error := UnexpectedError missingIdMessage.

Section CheckAccess.

(** The two functions imported from [@n8n/permissions]. *)
Variable hasGlobalScope : User.t -> list Scope -> ScopeOptions -> bool.
Variable rolesWithScope : string -> list Scope -> list string.

(** Lines 50-61: the role the user holds in [currentProjectId], tested
    against the roles that grant the scopes on a project.  [true] is
    the [return true] of line 59. *)
Definition roleInProjectGrants
    (projectRoles : list ProjectRole.t) (scopes : list Scope)
    (currentProjectId : string) : bool :=
  match find (fun pr => ProjectRole.projectId pr =? currentProjectId)
             projectRoles with
  | Some userRoleInProject =>
      let permittedRolesForScope := rolesWithScope "project" scopes in
      Js.includes permittedRolesForScope (ProjectRole.role userRoleInProject)
  | None => false
  end.

(** Lines 32-63, the block on [User.projectRoles]: resolves to [true]
    when the block returns [true], to [false] when control leaves it. *)
Definition projectRolesGrant
    (user : User.t) (scopes : list Scope) (ids : ResourceIds)
  : Promise bool :=
  match User.projectRoles user with
  | Some projectRoles =>
      if (0 <? length projectRoles)%nat then
        let currentProjectId := projectId ids in
        currentProjectId <-
          (if negb (Js.truthy currentProjectId) && Js.truthy (workflowId ids)
           then
             sharedWorkflow <-
               findSharedWorkflow (Js.valueOf (workflowId ids)) ;;
             match sharedWorkflow with
             | Some sw => ret (Some (SharedWorkflow.projectId sw))
             | None => ret currentProjectId
             end
           else ret currentProjectId) ;;
        currentProjectId <-
          (if negb (Js.truthy currentProjectId) && Js.truthy (credentialId ids)
           then
             sharedCredential <-
               findSharedCredentials (Js.valueOf (credentialId ids)) ;;
             match sharedCredential with
             | Some sc => ret (Some (SharedCredentials.projectId sc))
             | None => ret currentProjectId
             end
           else ret currentProjectId) ;;
        if Js.truthy currentProjectId then
          ret (roleInProjectGrants projectRoles scopes
                 (Js.valueOf currentProjectId))
        else ret false
      else ret false
  | None => ret false
  end.

Definition userHasScopes
    (user : User.t) (scopes : list Scope) (globalOnly : bool)
    (ids : ResourceIds) : Promise bool :=
  if hasGlobalScope user scopes allOfMode then ret true
  else if globalOnly then ret false
  else
    granted <- projectRolesGrant user scopes ids ;;
    if (granted : bool) then ret true
    else if anyIdTruthy ids then ret false
    else Rejected configurationError.

End CheckAccess.

(** The value of [currentProjectId] when control reaches line 49, given
    what the repositories answer (lines 33-47). *)
Definition resolveProject (db : Repositories) (ids : ResourceIds)
  : Js.optString :=
  let currentProjectId := projectId ids in
  let currentProjectId :=
    if negb (Js.truthy currentProjectId) && Js.truthy (workflowId ids) then
      match sharedWorkflows db (Js.valueOf (workflowId ids)) with
      | Some sw => Some (SharedWorkflow.projectId sw)
      | None => currentProjectId
      end
    else currentProjectId in
  if negb (Js.truthy currentProjectId) && Js.truthy (credentialId ids) then
    match sharedCredentials db (Js.valueOf (credentialId ids)) with
    | Some sc => Some (SharedCredentials.projectId sc)
    | None => currentProjectId
    end
  else currentProjectId.

(** ** Migration [AddOrganizationFields1746000000000] *)

(** The options given to [new TableColumn({...})]. *)
Module TableColumn.
Record t := {
  name : string;
  type : string;
  length : option string;
  isNullable : bool
}.
End TableColumn.

Module AddOrganizationFields1746000000000.

Section QueryRunner.

(** The [QueryRunner] of [@n8n/typeorm], as far as the migration uses it:
    [addColumn(table, column)] and [dropColumn(table, columnName)] act on
    the schema of the database and either fulfil ([None]) or reject with
    an error of the driver. *)
Variable Schema : Type.
Variable QueryError : Type.
Variable addColumn :
  string -> TableColumn.t -> Schema -> Schema * option QueryError.
Variable dropColumn :
  string -> string -> Schema -> Schema * option QueryError.

Definition organizationName : TableColumn.t :=
  {| TableColumn.name := "organizationName";
     TableColumn.type := "varchar";
     TableColumn.length := Some "255";
     TableColumn.isNullable := true |}.

Definition projectRoles : TableColumn.t :=
  {| TableColumn.name := "projectRoles";
     TableColumn.type := "json";
     TableColumn.length := None;
     TableColumn.isNullable := true |}.

(** [up]: each [await] either continues or rejects the whole call. *)
Definition up (schema : Schema) : Schema * option QueryError :=
  match addColumn "project" organizationName schema with
  | (schema, None) => addColumn "user" projectRoles schema
  | (schema, Some e) => (schema, Some e)
  end.

Definition down (schema : Schema) : Schema * option QueryError :=
  match dropColumn "user" "projectRoles" schema with
  | (schema, None) => dropColumn "project" "organizationName" schema
  | (schema, Some e) => (schema, Some e)
  end.

End QueryRunner.

End AddOrganizationFields1746000000000.

(** A schema kept as the list of the columns added, most recent first:
    adding a column a table already has is rejected, and so is dropping a
    column a table does not have. *)
Module ListSchema.

Definition t := list (string * TableColumn.t).

Definition isColumn (table name : string) (entry : string * TableColumn.t)
  : bool :=
  (fst entry =? table) && (TableColumn.name (snd entry) =? name).

Fixpoint remove (table name : string) (schema : t) : t :=
  match schema with
  | [] => []
  | entry :: rest =>
      if isColumn table name entry then rest
      else entry :: remove table name rest
  end.

Definition addColumn (table : string) (column : TableColumn.t) (schema : t)
  : t * option string :=
  if existsb (isColumn table (TableColumn.name column)) schema
  then (schema, Some "column already exists")
  else ((table, column) :: schema, None).

Definition dropColumn (table name : string) (schema : t)
  : t * option string :=
  if existsb (isColumn table name) schema
  then (remove table name schema, None)
  else (schema, Some "column does not exist").

End ListSchema.

(** ** The jest suite of [userHasScopes], replayed on the embedding *)

Module Fixtures.

Definition projectId1 := "project-id-1".
Definition projectId2 := "project-id-2".
Definition workflowId1 := "workflow-id-1".
Definition credentialId1 := "credential-id-1".

Definition scopeProjectRead : list Scope := ["project:read"].
Definition scopeWorkflowCreate : list Scope := ["workflow:create"].
Definition scopeCredentialDelete : list Scope := ["credential:delete"].

Definition mockUser (projectRoles : option (list ProjectRole.t)) : User.t :=
  {| User.id := "user-id-1";
     User.role := "global:viewer";
     User.projectRoles := projectRoles |}.

(** [(hasGlobalScope as jest.Mock).mockReturnValue(b)] *)
Definition hasGlobalScopeReturns (b : bool)
  : User.t -> list Scope -> ScopeOptions -> bool :=
  fun _ _ _ => b.

(** [(rolesWithScope as jest.Mock).mockReturnValue(roles)] *)
Definition rolesWithScopeReturns (roles : list string)
  : string -> list Scope -> list string :=
  fun _ _ => roles.

(** [findOneBy.mockResolvedValue(...)] on both repositories. *)
Definition repositories
    (sw : option SharedWorkflow.t) (sc : option SharedCredentials.t)
  : Repositories :=
  {| sharedWorkflows := fun _ => sw; sharedCredentials := fun _ => sc |}.

Definition noRecords : Repositories := repositories None None.

Definition onlyProject (p : string) : ResourceIds :=
  {| credentialId := None; workflowId := None; projectId := Some p |}.
Definition onlyWorkflow (w : string) : ResourceIds :=
  {| credentialId := None; workflowId := Some w; projectId := None |}.
Definition onlyCredential (c : string) : ResourceIds :=
  {| credentialId := Some c; workflowId := None; projectId := None |}.
Definition noIds : ResourceIds :=
  {| credentialId := None; workflowId := None; projectId := None |}.

Definition entry (p r : string) : ProjectRole.t :=
  {| ProjectRole.projectId := p; ProjectRole.role := r |}.

(** A grant mapping that answers [roles] for kind ['project'] and
    [others] for every other kind. *)
Definition rolesByKind (roles others : list string)
  : string -> list Scope -> list string :=
  fun kind _ => if kind =? "project" then roles else others.

(** A global check that succeeds in mode [oneOf] only. *)
Definition hasGlobalScopeOneOfOnly
  : User.t -> list Scope -> ScopeOptions -> bool :=
  fun _ _ options =>
    match mode options with
    | oneOf => true
    | allOf => false
    end.

(** Repositories that hold the given records under one key each. *)
Definition repositoriesAt
    (w : string) (sw : SharedWorkflow.t)
    (c : string) (sc : SharedCredentials.t) : Repositories :=
  {| sharedWorkflows := fun k => if k =? w then Some sw else None;
     sharedCredentials := fun k => if k =? c then Some sc else None |}.

End Fixtures.

Module Tests.
Import Fixtures.

Example test_global_scope_grants :
  run noRecords
    (userHasScopes (hasGlobalScopeReturns true) (rolesWithScopeReturns [])
       (mockUser (Some [])) scopeProjectRead false (onlyProject projectId1))
  = ([], Fulfilled true).
Proof. reflexivity. Qed.

Example test_global_only_denies :
  run noRecords
    (userHasScopes (hasGlobalScopeReturns false) (rolesWithScopeReturns [])
       (mockUser (Some [])) scopeProjectRead true (onlyProject projectId1))
  = ([], Fulfilled false).
Proof. reflexivity. Qed.

Example test_role_in_project_grants :
  run noRecords
    (userHasScopes (hasGlobalScopeReturns false)
       (rolesWithScopeReturns ["project:admin"])
       (mockUser (Some [entry projectId1 "project:admin"]))
       scopeProjectRead false (onlyProject projectId1))
  = ([], Fulfilled true).
Proof. reflexivity. Qed.

Example test_role_in_project_does_not_grant :
  run noRecords
    (userHasScopes (hasGlobalScopeReturns false)
       (rolesWithScopeReturns ["project:admin"])
       (mockUser (Some [entry projectId1 "project:viewer"]))
       scopeProjectRead false (onlyProject projectId1))
  = ([], Fulfilled false).
Proof. reflexivity. Qed.

Example test_role_in_other_project :
  run noRecords
    (userHasScopes (hasGlobalScopeReturns false)
       (rolesWithScopeReturns ["project:admin"])
       (mockUser (Some [entry projectId2 "project:admin"]))
       scopeProjectRead false (onlyProject projectId1))
  = ([], Fulfilled false).
Proof. reflexivity. Qed.

Example test_project_roles_null_or_empty :
  run noRecords
    (userHasScopes (hasGlobalScopeReturns false) (rolesWithScopeReturns [])
       (mockUser None) scopeProjectRead false (onlyProject projectId1))
  = ([], Fulfilled false)
  /\ run noRecords
    (userHasScopes (hasGlobalScopeReturns false) (rolesWithScopeReturns [])
       (mockUser (Some [])) scopeProjectRead false (onlyProject projectId1))
  = ([], Fulfilled false).
Proof. split; reflexivity. Qed.

Example test_role_found_via_workflow :
  run (repositories
         (Some {| SharedWorkflow.workflowId := workflowId1;
                  SharedWorkflow.projectId := projectId1 |}) None)
    (userHasScopes (hasGlobalScopeReturns false)
       (rolesWithScopeReturns ["workflow:creator"])
       (mockUser (Some [entry projectId1 "workflow:creator"]))
       scopeWorkflowCreate false (onlyWorkflow workflowId1))
  = ([ReadSharedWorkflow workflowId1], Fulfilled true).
Proof. reflexivity. Qed.

Example test_workflow_not_found :
  run noRecords
    (userHasScopes (hasGlobalScopeReturns false)
       (rolesWithScopeReturns ["workflow:creator"])
       (mockUser (Some [entry projectId1 "workflow:creator"]))
       scopeWorkflowCreate false (onlyWorkflow workflowId1))
  = ([ReadSharedWorkflow workflowId1], Fulfilled false).
Proof. reflexivity. Qed.

Example test_role_found_via_credential :
  run (repositories None
         (Some {| SharedCredentials.credentialsId := credentialId1;
                  SharedCredentials.projectId := projectId1 |}))
    (userHasScopes (hasGlobalScopeReturns false)
       (rolesWithScopeReturns ["credential:owner"])
       (mockUser (Some [entry projectId1 "credential:owner"]))
       scopeCredentialDelete false (onlyCredential credentialId1))
  = ([ReadSharedCredentials credentialId1], Fulfilled true).
Proof. reflexivity. Qed.

Example test_credential_not_found :
  run noRecords
    (userHasScopes (hasGlobalScopeReturns false)
       (rolesWithScopeReturns ["credential:owner"])
       (mockUser (Some [entry projectId1 "credential:owner"]))
       scopeCredentialDelete false (onlyCredential credentialId1))
  = ([ReadSharedCredentials credentialId1], Fulfilled false).
Proof. reflexivity. Qed.

Example test_no_resource_id_throws :
  run noRecords
    (userHasScopes (hasGlobalScopeReturns false) (rolesWithScopeReturns [])
       (mockUser (Some [])) scopeProjectRead false noIds)
  = ([], Failed (UnexpectedError missingIdMessage)).
Proof. reflexivity. Qed.

Example test_workflow_role_mismatch :
  run (repositories
         (Some {| SharedWorkflow.workflowId := workflowId1;
                  SharedWorkflow.projectId := projectId1 |}) None)
    (userHasScopes (hasGlobalScopeReturns false)
       (rolesWithScopeReturns ["workflow:creator"])
       (mockUser (Some [entry projectId1 "viewer"]))
       scopeWorkflowCreate false (onlyWorkflow workflowId1))
  = ([ReadSharedWorkflow workflowId1], Fulfilled false).
Proof. reflexivity. Qed.

End Tests.

(** ** Truthiness *)

Lemma truthy_Some (s : string) : Js.truthy (Some s) = true <-> s <> "".
Proof.
  simpl. destruct (String.eqb_spec s ""); simpl; split; intros H;
    congruence.
Qed.

Lemma truthy_valueOf (v : Js.optString) :
  Js.truthy v = true -> v = Some (Js.valueOf v).
Proof. destruct v; simpl; [reflexivity | discriminate]. Qed.

Lemma anyIdTruthy_false (ids : ResourceIds) :
  anyIdTruthy ids = false <->
  Js.truthy (projectId ids) = false /\ Js.truthy (workflowId ids) = false
  /\ Js.truthy (credentialId ids) = false.
Proof.
  unfold anyIdTruthy.
  destruct (Js.truthy (projectId ids)), (Js.truthy (workflowId ids)),
    (Js.truthy (credentialId ids)); simpl; intuition congruence.
Qed.

(** ** Running promises *)

Section Run.
Context {A B : Type} (db : Repositories).

(** Running [p] and then [f] performs the reads of [p] followed by the
    reads of [f]; a rejection of [p] skips [f]. *)
Lemma run_andThen (p : Promise A) (f : A -> Promise B) :
  run db (andThen p f) =
  match run db p with
  | (r1, Fulfilled a) => let (r2, s) := run db (f a) in ((r1 ++ r2)%list, s)
  | (r1, Failed e) => (r1, Failed e)
  end.
Proof.
  induction p as [a | e | w k IH | c k IH]; simpl.
  - destruct (run db (f a)); reflexivity.
  - reflexivity.
  - rewrite IH. destruct (run db (k (sharedWorkflows db w))) as [r1 [a | e]].
    + destruct (run db (f a)); reflexivity.
    + reflexivity.
  - rewrite IH. destruct (run db (k (sharedCredentials db c))) as [r1 [a | e]].
    + destruct (run db (f a)); reflexivity.
    + reflexivity.
Qed.

End Run.

Lemma run_bind {A B} db (p : Promise A) (f : A -> Promise B) :
  run db (bind p f) =
  match run db p with
  | (r1, Fulfilled a) => let (r2, s) := run db (f a) in ((r1 ++ r2)%list, s)
  | (r1, Failed e) => (r1, Failed e)
  end.
Proof. apply run_andThen. Qed.

(** ** The block on [User.projectRoles] *)

(** Case analysis along the tests of the code: rewrite with what is known,
    then split on the next test that blocks evaluation. *)
Ltac split_test :=
  match goal with
  | H : Js.truthy ?v = _ |- context [Js.truthy ?v] => rewrite H
  | H : (?s =? "") = _ |- context [?s =? ""] => rewrite H
  | H : sharedWorkflows ?db ?w = _ |- context [sharedWorkflows ?db ?w] =>
      rewrite H
  | H : sharedCredentials ?db ?c = _ |- context [sharedCredentials ?db ?c] =>
      rewrite H
  | |- context [Js.truthy ?v] => destruct (Js.truthy v) eqn:?
  | |- context [?s =? ""] => destruct (s =? "") eqn:?
  | |- context [match sharedWorkflows ?db ?w with _ => _ end] =>
      destruct (sharedWorkflows db w) eqn:?
  | |- context [match sharedCredentials ?db ?c with _ => _ end] =>
      destruct (sharedCredentials db c) eqn:?
  end.

Ltac along_tests := cbn; repeat (split_test; cbn).

Section ProjectRolesFacts.
Variable rolesWithScope : string -> list Scope -> list string.
Variable db : Repositories.
Variables (user : User.t) (scopes : list Scope) (ids : ResourceIds).

(** A null or empty [projectRoles] skips the block: nothing is awaited. *)
Lemma projectRolesGrant_no_roles :
  User.projectRoles user = None \/ User.projectRoles user = Some [] ->
  projectRolesGrant rolesWithScope user scopes ids = Resolved false.
Proof.
  unfold projectRolesGrant. intros [-> | ->]; reflexivity.
Qed.

(** A truthy [projectId] is the project evaluated; nothing is read. *)
Lemma projectRolesGrant_explicit (l : list ProjectRole.t) :
  User.projectRoles user = Some l -> l <> [] ->
  Js.truthy (projectId ids) = true ->
  projectRolesGrant rolesWithScope user scopes ids =
  Resolved (roleInProjectGrants rolesWithScope l scopes
              (Js.valueOf (projectId ids))).
Proof.
  unfold projectRolesGrant. intros -> Hl Hp.
  destruct l as [| pr l]; [congruence |].
  along_tests. reflexivity.
Qed.

(** The block never rejects. *)
Lemma projectRolesGrant_fulfils :
  exists b, settlement db (projectRolesGrant rolesWithScope user scopes ids)
            = Fulfilled b.
Proof.
  unfold settlement, projectRolesGrant.
  destruct (User.projectRoles user) as [[| pr l] |];
    try (eexists; reflexivity).
  along_tests; eexists; reflexivity.
Qed.

(** Without a truthy identifier no project is resolved and nothing is
    read. *)
Lemma projectRolesGrant_no_ids :
  anyIdTruthy ids = false ->
  run db (projectRolesGrant rolesWithScope user scopes ids)
  = ([], Fulfilled false).
Proof.
  intros H. apply anyIdTruthy_false in H. destruct H as (Hp & Hw & Hc).
  unfold projectRolesGrant.
  destruct (User.projectRoles user) as [[| pr l] |]; try reflexivity.
  along_tests. reflexivity.
Qed.

End ProjectRolesFacts.

(** ** Searching [User.projectRoles] *)

Lemma includes_In (l : list string) (x : string) :
  Js.includes l x = true <-> In x l.
Proof.
  unfold Js.includes. rewrite existsb_exists. split.
  - intros (y & Hy & E). apply String.eqb_eq in E. congruence.
  - intros H. exists x. split; [assumption | apply String.eqb_refl].
Qed.

(** With at most one entry per project, [find] returns the entry held. *)
Lemma find_entry_unique (l : list ProjectRole.t) (pr : ProjectRole.t) :
  NoDup (map ProjectRole.projectId l) -> In pr l ->
  find (fun x => ProjectRole.projectId x =? ProjectRole.projectId pr) l
  = Some pr.
Proof.
  induction l as [| x l IH]; simpl; intros Hnd Hin; [contradiction |].
  inversion Hnd as [| ? ? Hx Hl]; subst.
  destruct (String.eqb_spec (ProjectRole.projectId x)
              (ProjectRole.projectId pr)) as [E | NE].
  - destruct Hin as [-> | Hin]; [reflexivity |].
    exfalso. apply Hx. rewrite E. apply in_map. assumption.
  - destruct Hin as [-> | Hin]; [congruence | auto].
Qed.

Lemma find_entry_none (l : list ProjectRole.t) (p : string) :
  (forall pr, In pr l -> ProjectRole.projectId pr <> p) ->
  find (fun x => ProjectRole.projectId x =? p) l = None.
Proof.
  induction l as [| x l IH]; simpl; intros H; [reflexivity |].
  destruct (String.eqb_spec (ProjectRole.projectId x) p) as [E | NE].
  - exfalso. apply (H x); auto.
  - apply IH. intros pr Hin. apply H. auto.
Qed.

(** ** The whole check *)

Section UserHasScopesFacts.
Variable hasGlobalScope : User.t -> list Scope -> ScopeOptions -> bool.
Variable rolesWithScope : string -> list Scope -> list string.
Variable db : Repositories.
Variables (user : User.t) (scopes : list Scope).

(** The check in terms of its block on [User.projectRoles]. *)
Lemma run_userHasScopes (globalOnly : bool) (ids : ResourceIds) :
  run db (userHasScopes hasGlobalScope rolesWithScope user scopes
            globalOnly ids) =
  if hasGlobalScope user scopes allOfMode then ([], Fulfilled true)
  else if globalOnly then ([], Fulfilled false)
  else
    match run db (projectRolesGrant rolesWithScope user scopes ids) with
    | (r, Fulfilled true) => (r, Fulfilled true)
    | (r, Fulfilled false) =>
        (r, if anyIdTruthy ids then Fulfilled false
            else Failed configurationError)
    | (r, Failed e) => (r, Failed e)
    end.
Proof.
  unfold userHasScopes.
  destruct (hasGlobalScope user scopes allOfMode); [reflexivity |].
  destruct globalOnly; [reflexivity |].
  rewrite run_bind.
  destruct (run db (projectRolesGrant rolesWithScope user scopes ids))
    as [r [[|] | e]]; cbn; rewrite ?app_nil_r; try reflexivity.
  destruct (anyIdTruthy ids); cbn; rewrite app_nil_r; reflexivity.
Qed.

(** A null or empty [projectRoles] leaves only the test of line 112. *)
Lemma run_userHasScopes_no_roles (ids : ResourceIds) :
  hasGlobalScope user scopes allOfMode = false ->
  User.projectRoles user = None \/ User.projectRoles user = Some [] ->
  run db (userHasScopes hasGlobalScope rolesWithScope user scopes false ids)
  = ([], if anyIdTruthy ids then Fulfilled false
         else Failed configurationError).
Proof.
  intros Hg Hr. rewrite run_userHasScopes, Hg.
  rewrite (projectRolesGrant_no_roles _ _ _ _ Hr). reflexivity.
Qed.

(** A truthy [projectId] decides alone, with no read. *)
Lemma run_userHasScopes_explicit (ids : ResourceIds) (l : list ProjectRole.t) :
  hasGlobalScope user scopes allOfMode = false ->
  User.projectRoles user = Some l ->
  Js.truthy (projectId ids) = true ->
  run db (userHasScopes hasGlobalScope rolesWithScope user scopes false ids)
  = ([], Fulfilled (roleInProjectGrants rolesWithScope l scopes
                      (Js.valueOf (projectId ids)))).
Proof.
  intros Hg Hr Hp. rewrite run_userHasScopes, Hg.
  assert (Hany : anyIdTruthy ids = true)
    by (unfold anyIdTruthy; rewrite Hp; reflexivity).
  destruct l as [| pr l].
  - rewrite (projectRolesGrant_no_roles _ _ _ _ (or_intror Hr)).
    cbn. rewrite Hany. reflexivity.
  - rewrite (projectRolesGrant_explicit _ _ _ _ (pr :: l) Hr) by
      (assumption || discriminate).
    cbn [run]. rewrite Hany.
    destruct (roleInProjectGrants _ _ _ _); reflexivity.
Qed.

End UserHasScopesFacts.

(** ** Properties of [userHasScopes] *)

(** C2. A user whose global role grants all the required scopes
    ([hasGlobalScope] in mode [allOf] answers [true]) is granted access,
    whatever the resource identifiers and [globalOnly] are, and no
    repository is read. *)
Theorem global_scope_grants
    hasGlobalScope rolesWithScope db user scopes globalOnly ids :
  hasGlobalScope user scopes allOfMode = true ->
  run db (userHasScopes hasGlobalScope rolesWithScope user scopes
            globalOnly ids)
  = ([], Fulfilled true).
Proof.
  intros Hg. rewrite run_userHasScopes, Hg. reflexivity.
Qed.

Lemma global_scope_grants_witness :
  Fixtures.hasGlobalScopeReturns true (Fixtures.mockUser None)
    Fixtures.scopeProjectRead allOfMode = true
  /\ run Fixtures.noRecords
       (userHasScopes (Fixtures.hasGlobalScopeReturns true)
          (Fixtures.rolesWithScopeReturns []) (Fixtures.mockUser None)
          Fixtures.scopeProjectRead true
          (Fixtures.onlyWorkflow Fixtures.workflowId1))
     = ([], Fulfilled true).
Proof.
  split; [reflexivity |].
  apply (global_scope_grants (Fixtures.hasGlobalScopeReturns true)).
  reflexivity.
Defined.

(** C3. When the global role does not grant all the required scopes and
    [globalOnly] is set, access is denied with the boolean [false], and
    neither the workflow-sharing nor the credential-sharing repository is
    read, whatever identifiers were supplied. *)
Theorem global_only_denies
    hasGlobalScope rolesWithScope db user scopes ids :
  hasGlobalScope user scopes allOfMode = false ->
  run db (userHasScopes hasGlobalScope rolesWithScope user scopes true ids)
  = ([], Fulfilled false).
Proof.
  intros Hg. rewrite run_userHasScopes, Hg. reflexivity.
Qed.

Lemma global_only_denies_witness :
  Fixtures.hasGlobalScopeReturns false
    (Fixtures.mockUser (Some [Fixtures.entry Fixtures.projectId1 "project:admin"]))
    Fixtures.scopeProjectRead allOfMode = false
  /\ run Fixtures.noRecords
       (userHasScopes (Fixtures.hasGlobalScopeReturns false)
          (Fixtures.rolesWithScopeReturns ["project:admin"])
          (Fixtures.mockUser
             (Some [Fixtures.entry Fixtures.projectId1 "project:admin"]))
          Fixtures.scopeProjectRead true
          (Fixtures.onlyProject Fixtures.projectId1))
     = ([], Fulfilled false).
Proof.
  split; [reflexivity |].
  apply (global_only_denies (Fixtures.hasGlobalScopeReturns false)).
  reflexivity.
Defined.

(** C9. When [User.projectRoles] is null or empty (the global check having
    failed, [globalOnly] false), no repository is read at all, even if a
    [workflowId] or a [credentialId] is supplied: the resolution of the
    resource to its project is skipped. *)
Theorem no_roles_no_reads
    hasGlobalScope rolesWithScope db user scopes ids :
  hasGlobalScope user scopes allOfMode = false ->
  User.projectRoles user = None \/ User.projectRoles user = Some [] ->
  reads db (userHasScopes hasGlobalScope rolesWithScope user scopes false ids)
  = [].
Proof.
  intros Hg Hr. unfold reads.
  rewrite (run_userHasScopes_no_roles _ _ _ _ _ _ Hg Hr). reflexivity.
Qed.

Lemma no_roles_no_reads_witness :
  Fixtures.hasGlobalScopeReturns false (Fixtures.mockUser None)
    Fixtures.scopeWorkflowCreate allOfMode = false
  /\ (User.projectRoles (Fixtures.mockUser None) = None
      \/ User.projectRoles (Fixtures.mockUser None) = Some [])
  /\ reads
       (Fixtures.repositories
          (Some {| SharedWorkflow.workflowId := Fixtures.workflowId1;
                   SharedWorkflow.projectId := Fixtures.projectId1 |})
          None)
       (userHasScopes (Fixtures.hasGlobalScopeReturns false)
          (Fixtures.rolesWithScopeReturns ["workflow:creator"])
          (Fixtures.mockUser None) Fixtures.scopeWorkflowCreate false
          {| credentialId := Some Fixtures.credentialId1;
             workflowId := Some Fixtures.workflowId1;
             projectId := None |})
     = [].
Proof.
  split; [reflexivity |]. split; [left; reflexivity |].
  apply (no_roles_no_reads (Fixtures.hasGlobalScopeReturns false)).
  - reflexivity.
  - left; reflexivity.
Defined.

(** C1 (amended). [userHasScopes] rejects with the [UnexpectedError] of line
    118 if and only if the global check fails, [globalOnly] is false and
    none of [projectId], [workflowId], [credentialId] is a non-empty string
    (an identifier that is absent or the empty string counts as not
    supplied, by the truthiness tests of the code).  Whenever at least one
    of them is a non-empty string and access is not granted, the result is
    the boolean [false], never an error. *)
Theorem configuration_error_iff_no_identifier
    hasGlobalScope rolesWithScope db user scopes globalOnly ids :
  (settlement db (userHasScopes hasGlobalScope rolesWithScope user scopes
                    globalOnly ids) = Failed configurationError
   <-> hasGlobalScope user scopes allOfMode = false
       /\ globalOnly = false
       /\ Js.truthy (projectId ids) = false
       /\ Js.truthy (workflowId ids) = false
       /\ Js.truthy (credentialId ids) = false)
  /\ (anyIdTruthy ids = true ->
      settlement db (userHasScopes hasGlobalScope rolesWithScope user scopes
                       globalOnly ids) <> Fulfilled true ->
      settlement db (userHasScopes hasGlobalScope rolesWithScope user scopes
                       globalOnly ids) = Fulfilled false).
Proof.
  rewrite <- anyIdTruthy_false.
  unfold settlement. rewrite run_userHasScopes.
  destruct (hasGlobalScope user scopes allOfMode); cbn.
  { split; [split |]; intros; intuition congruence. }
  destruct globalOnly; cbn.
  { split; [split |]; intros; intuition congruence. }
  destruct (projectRolesGrant_fulfils rolesWithScope db user scopes ids)
    as [b Hb].
  pose proof (projectRolesGrant_no_ids rolesWithScope db user scopes ids)
    as Hnone.
  unfold settlement in Hb.
  destruct (run db (projectRolesGrant rolesWithScope user scopes ids))
    as [r s].
  cbn in Hb. subst s.
  destruct b; cbn.
  - split; [split |]; intros H; try congruence.
    destruct H as (_ & _ & H). specialize (Hnone H). congruence.
  - destruct (anyIdTruthy ids); cbn; split; try split; intros;
      intuition congruence.
Qed.

(** C1, as stated, fails when the identifier supplied is the empty
    string: a [projectId] is supplied, no grant is found, and the call
    rejects with the error instead of returning [false]. *)
Lemma empty_project_id_raises :
  projectId (Fixtures.onlyProject "") = Some ""
  /\ run Fixtures.noRecords
       (userHasScopes (Fixtures.hasGlobalScopeReturns false)
          (Fixtures.rolesWithScopeReturns ["project:admin"])
          (Fixtures.mockUser
             (Some [Fixtures.entry Fixtures.projectId1 "project:admin"]))
          Fixtures.scopeProjectRead false (Fixtures.onlyProject ""))
     = ([], Failed configurationError).
Proof. split; reflexivity. Qed.

(** C7 (amended). When at least one identifier is supplied as a non-empty
    string and [User.projectRoles] is null or empty (the global check
    having failed, [globalOnly] false), [userHasScopes] returns [false]:
    a null collection behaves as an empty one and causes no error. *)
Theorem no_roles_denies
    hasGlobalScope rolesWithScope db user scopes ids :
  hasGlobalScope user scopes allOfMode = false ->
  User.projectRoles user = None \/ User.projectRoles user = Some [] ->
  anyIdTruthy ids = true ->
  settlement db (userHasScopes hasGlobalScope rolesWithScope user scopes
                   false ids)
  = Fulfilled false.
Proof.
  intros Hg Hr Hany. unfold settlement.
  rewrite (run_userHasScopes_no_roles _ _ _ _ _ _ Hg Hr), Hany. reflexivity.
Qed.

Lemma no_roles_denies_witness :
  Fixtures.hasGlobalScopeReturns false (Fixtures.mockUser None)
    Fixtures.scopeProjectRead allOfMode = false
  /\ (User.projectRoles (Fixtures.mockUser None) = None
      \/ User.projectRoles (Fixtures.mockUser None) = Some [])
  /\ anyIdTruthy (Fixtures.onlyCredential Fixtures.credentialId1) = true
  /\ settlement Fixtures.noRecords
       (userHasScopes (Fixtures.hasGlobalScopeReturns false)
          (Fixtures.rolesWithScopeReturns []) (Fixtures.mockUser None)
          Fixtures.scopeProjectRead false
          (Fixtures.onlyCredential Fixtures.credentialId1))
     = Fulfilled false.
Proof.
  split; [reflexivity |]. split; [left; reflexivity |].
  split; [reflexivity |].
  apply (no_roles_denies (Fixtures.hasGlobalScopeReturns false)).
  - reflexivity.
  - left; reflexivity.
  - reflexivity.
Defined.

(** C7, as stated, fails when the only identifier supplied is the empty
    string: with a null and with an empty [projectRoles] alike the call
    rejects with the error. *)
Lemma no_roles_empty_id_raises :
  workflowId (Fixtures.onlyWorkflow "") = Some ""
  /\ settlement Fixtures.noRecords
       (userHasScopes (Fixtures.hasGlobalScopeReturns false)
          (Fixtures.rolesWithScopeReturns []) (Fixtures.mockUser None)
          Fixtures.scopeProjectRead false (Fixtures.onlyWorkflow ""))
     = Failed configurationError
  /\ settlement Fixtures.noRecords
       (userHasScopes (Fixtures.hasGlobalScopeReturns false)
          (Fixtures.rolesWithScopeReturns []) (Fixtures.mockUser (Some []))
          Fixtures.scopeProjectRead false (Fixtures.onlyWorkflow ""))
     = Failed configurationError.
Proof. repeat split. Qed.

(** C4 (amended). The global check having failed and [globalOnly] being
    false, let the caller supply a non-empty [projectId] [P].  If the
    user's project-role list, holding at most one entry per project,
    contains the entry [{projectId: P, role: R}], then [userHasScopes]
    returns a boolean that is [true] exactly when [R] is a member of
    [rolesWithScope('project', scopes)]; if the user holds no entry for
    [P], it returns [false].  No repository is read in either case. *)
Theorem explicit_project_decides
    hasGlobalScope rolesWithScope db user scopes ids P :
  hasGlobalScope user scopes allOfMode = false ->
  projectId ids = Some P -> P <> "" ->
  (forall l R,
      User.projectRoles user = Some l ->
      NoDup (map ProjectRole.projectId l) ->
      In {| ProjectRole.projectId := P; ProjectRole.role := R |} l ->
      exists b,
        run db (userHasScopes hasGlobalScope rolesWithScope user scopes
                  false ids) = ([], Fulfilled b)
        /\ (b = true <-> In R (rolesWithScope "project" scopes)))
  /\ ((forall l pr, User.projectRoles user = Some l -> In pr l ->
                    ProjectRole.projectId pr <> P) ->
      run db (userHasScopes hasGlobalScope rolesWithScope user scopes
                false ids) = ([], Fulfilled false)).
Proof.
  intros Hg Hp HP.
  assert (Ht : Js.truthy (projectId ids) = true)
    by (rewrite Hp; apply truthy_Some; assumption).
  split.
  - intros l R Hr Hnd Hin.
    exists (Js.includes (rolesWithScope "project" scopes) R).
    split; [| apply includes_In].
    rewrite (run_userHasScopes_explicit _ _ _ _ _ _ l Hg Hr Ht).
    unfold roleInProjectGrants. rewrite Hp. cbn [Js.valueOf].
    pose proof (find_entry_unique l _ Hnd Hin) as Hf. cbn in Hf.
    rewrite Hf. reflexivity.
  - intros Hno.
    destruct (User.projectRoles user) as [l |] eqn:Hr.
    + rewrite (run_userHasScopes_explicit _ _ _ _ _ _ l Hg Hr Ht).
      unfold roleInProjectGrants. rewrite Hp. cbn [Js.valueOf].
      rewrite find_entry_none; [reflexivity |].
      intros pr Hin. apply (Hno l pr eq_refl Hin).
    + rewrite (run_userHasScopes_no_roles _ _ _ _ _ _ Hg (or_introl Hr)).
      unfold anyIdTruthy. rewrite Ht. reflexivity.
Qed.

Lemma explicit_project_decides_witness :
  let user :=
    Fixtures.mockUser
      (Some [Fixtures.entry Fixtures.projectId2 "project:viewer";
             Fixtures.entry Fixtures.projectId1 "project:admin"]) in
  let check :=
    userHasScopes (Fixtures.hasGlobalScopeReturns false)
      (Fixtures.rolesWithScopeReturns ["project:admin"]) user
      Fixtures.scopeProjectRead false
      (Fixtures.onlyProject Fixtures.projectId1) in
  Fixtures.hasGlobalScopeReturns false user Fixtures.scopeProjectRead
    allOfMode = false
  /\ Fixtures.projectId1 <> ""
  /\ exists b,
       run Fixtures.noRecords check = ([], Fulfilled b)
       /\ (b = true <->
           In "project:admin"
              (Fixtures.rolesWithScopeReturns ["project:admin"] "project"
                 Fixtures.scopeProjectRead)).
Proof.
  cbv zeta. split; [reflexivity |]. split; [discriminate |].
  apply (proj1 (explicit_project_decides
                  (Fixtures.hasGlobalScopeReturns false)
                  (Fixtures.rolesWithScopeReturns ["project:admin"])
                  Fixtures.noRecords
                  (Fixtures.mockUser
                     (Some [Fixtures.entry Fixtures.projectId2 "project:viewer";
                            Fixtures.entry Fixtures.projectId1 "project:admin"]))
                  Fixtures.scopeProjectRead
                  (Fixtures.onlyProject Fixtures.projectId1)
                  Fixtures.projectId1
                  eq_refl eq_refl ltac:(discriminate))
           [Fixtures.entry Fixtures.projectId2 "project:viewer";
            Fixtures.entry Fixtures.projectId1 "project:admin"]
           "project:admin" eq_refl).
  - repeat constructor; cbn; intuition discriminate.
  - right; left; reflexivity.
Defined.

(** C4, as stated, fails when the [projectId] supplied is the empty
    string: the user's only entry is for that project and its role is a
    granting one, yet the call does not return [true], it rejects. *)
Lemma empty_project_id_not_evaluated :
  let roles := [Fixtures.entry "" "project:admin"] in
  In {| ProjectRole.projectId := ""; ProjectRole.role := "project:admin" |}
     roles
  /\ In "project:admin"
        (Fixtures.rolesWithScopeReturns ["project:admin"] "project"
           Fixtures.scopeProjectRead)
  /\ run Fixtures.noRecords
       (userHasScopes (Fixtures.hasGlobalScopeReturns false)
          (Fixtures.rolesWithScopeReturns ["project:admin"])
          (Fixtures.mockUser (Some roles)) Fixtures.scopeProjectRead false
          (Fixtures.onlyProject ""))
     = ([], Failed configurationError).
Proof. cbv zeta. repeat split; left; reflexivity. Qed.

(** C5 (amended). The global check having failed, [globalOnly] being false,
    the project-role list [l] being non-empty and no non-empty [projectId]
    being supplied:
    - a non-empty [workflowId] [w] makes the check read the workflow-sharing
      record of [w]; a record with a non-empty [projectId] makes that
      project the one evaluated against [l]; when no record is found the
      result is [false] if no non-empty [credentialId] is supplied or if
      its record is not found either;
    - with no non-empty [workflowId], a non-empty [credentialId] [c] makes
      the check read the credential-sharing record of [c], with the same
      outcomes.
    A lookup that finds nothing is a denial, not an error. *)
Theorem resolves_project_by_lookup
    hasGlobalScope rolesWithScope db user scopes ids l :
  hasGlobalScope user scopes allOfMode = false ->
  User.projectRoles user = Some l -> l <> [] ->
  Js.truthy (projectId ids) = false ->
  (forall w, workflowId ids = Some w -> w <> "" ->
     (forall sw, sharedWorkflows db w = Some sw ->
                 SharedWorkflow.projectId sw <> "" ->
        run db (userHasScopes hasGlobalScope rolesWithScope user scopes
                  false ids)
        = ([ReadSharedWorkflow w],
           Fulfilled (roleInProjectGrants rolesWithScope l scopes
                        (SharedWorkflow.projectId sw))))
     /\ (sharedWorkflows db w = None ->
         Js.truthy (credentialId ids) = false ->
         run db (userHasScopes hasGlobalScope rolesWithScope user scopes
                   false ids)
         = ([ReadSharedWorkflow w], Fulfilled false))
     /\ (sharedWorkflows db w = None ->
         forall c, credentialId ids = Some c -> c <> "" ->
                   sharedCredentials db c = None ->
         run db (userHasScopes hasGlobalScope rolesWithScope user scopes
                   false ids)
         = ([ReadSharedWorkflow w; ReadSharedCredentials c],
            Fulfilled false)))
  /\ (forall c, Js.truthy (workflowId ids) = false ->
                credentialId ids = Some c -> c <> "" ->
     (forall sc, sharedCredentials db c = Some sc ->
                 SharedCredentials.projectId sc <> "" ->
        run db (userHasScopes hasGlobalScope rolesWithScope user scopes
                  false ids)
        = ([ReadSharedCredentials c],
           Fulfilled (roleInProjectGrants rolesWithScope l scopes
                        (SharedCredentials.projectId sc))))
     /\ (sharedCredentials db c = None ->
         run db (userHasScopes hasGlobalScope rolesWithScope user scopes
                   false ids)
         = ([ReadSharedCredentials c], Fulfilled false))).
Proof.
  intros Hg Hr Hl Hp.
  destruct l as [| pr l]; [congruence | clear Hl].
  assert (E : forall s, s <> "" -> (s =? "") = false)
    by (intros s Hs; apply String.eqb_neq; assumption).
  split.
  - intros w Hw Hwne. apply E in Hwne.
    repeat split.
    + intros sw Hsw Hswne. apply E in Hswne.
      rewrite run_userHasScopes, Hg. unfold projectRolesGrant, anyIdTruthy.
      rewrite Hr, Hw. along_tests;
        destruct (roleInProjectGrants _ _ _ _); reflexivity.
    + intros Hsw Hc.
      rewrite run_userHasScopes, Hg. unfold projectRolesGrant, anyIdTruthy.
      rewrite Hr, Hw. along_tests. reflexivity.
    + intros Hsw c Hc Hcne Hsc. apply E in Hcne.
      rewrite run_userHasScopes, Hg. unfold projectRolesGrant, anyIdTruthy.
      rewrite Hr, Hw, Hc. along_tests. reflexivity.
  - intros c Hw Hc Hcne. apply E in Hcne.
    split.
    + intros sc Hsc Hscne. apply E in Hscne.
      rewrite run_userHasScopes, Hg. unfold projectRolesGrant, anyIdTruthy.
      rewrite Hr, Hc. along_tests;
        destruct (roleInProjectGrants _ _ _ _); reflexivity.
    + intros Hsc.
      rewrite run_userHasScopes, Hg. unfold projectRolesGrant, anyIdTruthy.
      rewrite Hr, Hc. along_tests. reflexivity.
Qed.

Lemma resolves_project_by_lookup_witness :
  let user :=
    Fixtures.mockUser
      (Some [Fixtures.entry Fixtures.projectId1 "workflow:creator"]) in
  let record :=
    {| SharedWorkflow.workflowId := Fixtures.workflowId1;
       SharedWorkflow.projectId := Fixtures.projectId1 |} in
  Fixtures.hasGlobalScopeReturns false user Fixtures.scopeWorkflowCreate
    allOfMode = false
  /\ [Fixtures.entry Fixtures.projectId1 "workflow:creator"] <> []
  /\ Js.truthy (projectId (Fixtures.onlyWorkflow Fixtures.workflowId1)) = false
  /\ Fixtures.workflowId1 <> ""
  /\ SharedWorkflow.projectId record <> ""
  /\ run (Fixtures.repositories (Some record) None)
       (userHasScopes (Fixtures.hasGlobalScopeReturns false)
          (Fixtures.rolesWithScopeReturns ["workflow:creator"]) user
          Fixtures.scopeWorkflowCreate false
          (Fixtures.onlyWorkflow Fixtures.workflowId1))
     = ([ReadSharedWorkflow Fixtures.workflowId1], Fulfilled true).
Proof.
  cbv zeta.
  split; [reflexivity |]. split; [discriminate |]. split; [reflexivity |].
  split; [discriminate |]. split; [discriminate |].
  apply (proj1 (proj1 (resolves_project_by_lookup
                         (Fixtures.hasGlobalScopeReturns false)
                         (Fixtures.rolesWithScopeReturns ["workflow:creator"])
                         (Fixtures.repositories
                            (Some {| SharedWorkflow.workflowId :=
                                       Fixtures.workflowId1;
                                     SharedWorkflow.projectId :=
                                       Fixtures.projectId1 |}) None)
                         (Fixtures.mockUser
                            (Some [Fixtures.entry Fixtures.projectId1
                                     "workflow:creator"]))
                         Fixtures.scopeWorkflowCreate
                         (Fixtures.onlyWorkflow Fixtures.workflowId1)
                         [Fixtures.entry Fixtures.projectId1 "workflow:creator"]
                         eq_refl eq_refl ltac:(discriminate) eq_refl)
                      Fixtures.workflowId1 eq_refl ltac:(discriminate))
           _ eq_refl).
  discriminate.
Defined.

(** C5, as stated, fails on empty strings.  A [workflowId] supplied as the
    empty string is not looked up and the call rejects instead of
    returning [false]; and a record found with an empty [projectId] does
    not become the project evaluated: the user's role in that project
    would grant, yet the result is [false]. *)
Lemma empty_strings_do_not_resolve :
  let roles := [Fixtures.entry "" "workflow:creator"] in
  let user := Fixtures.mockUser (Some roles) in
  let record :=
    {| SharedWorkflow.workflowId := Fixtures.workflowId1;
       SharedWorkflow.projectId := "" |} in
  run (Fixtures.repositories (Some record) None)
    (userHasScopes (Fixtures.hasGlobalScopeReturns false)
       (Fixtures.rolesWithScopeReturns ["workflow:creator"]) user
       Fixtures.scopeWorkflowCreate false (Fixtures.onlyWorkflow ""))
  = ([], Failed configurationError)
  /\ roleInProjectGrants (Fixtures.rolesWithScopeReturns ["workflow:creator"])
       roles Fixtures.scopeWorkflowCreate (SharedWorkflow.projectId record)
     = true
  /\ run (Fixtures.repositories (Some record) None)
       (userHasScopes (Fixtures.hasGlobalScopeReturns false)
          (Fixtures.rolesWithScopeReturns ["workflow:creator"]) user
          Fixtures.scopeWorkflowCreate false
          (Fixtures.onlyWorkflow Fixtures.workflowId1))
     = ([ReadSharedWorkflow Fixtures.workflowId1], Fulfilled false).
Proof. cbv zeta. repeat split. Qed.

(** C6 (amended). When a non-empty [projectId] is supplied together with a
    [workflowId], the explicit [projectId] is the project evaluated and
    the workflow-sharing repository is not read: the run is the run of the
    same call without the [workflowId], whatever the repositories hold. *)
Theorem explicit_project_wins
    hasGlobalScope rolesWithScope db db' user scopes globalOnly c w P :
  P <> "" ->
  run db (userHasScopes hasGlobalScope rolesWithScope user scopes globalOnly
            {| credentialId := c; workflowId := w; projectId := Some P |})
  = run db' (userHasScopes hasGlobalScope rolesWithScope user scopes
               globalOnly
               {| credentialId := c; workflowId := None;
                  projectId := Some P |})
  /\ reads db (userHasScopes hasGlobalScope rolesWithScope user scopes
                 globalOnly
                 {| credentialId := c; workflowId := w;
                    projectId := Some P |})
     = [].
Proof.
  intros HP. apply truthy_Some in HP. unfold reads.
  destruct (hasGlobalScope user scopes allOfMode) eqn:Hg.
  { rewrite !run_userHasScopes, Hg. split; reflexivity. }
  destruct globalOnly.
  { rewrite !run_userHasScopes, Hg. split; reflexivity. }
  destruct (User.projectRoles user) as [l |] eqn:Hr.
  - rewrite (run_userHasScopes_explicit _ _ db _ _
               {| credentialId := c; workflowId := w; projectId := Some P |}
               l Hg Hr HP).
    rewrite (run_userHasScopes_explicit _ _ db' _ _
               {| credentialId := c; workflowId := None; projectId := Some P |}
               l Hg Hr HP).
    split; reflexivity.
  - rewrite (run_userHasScopes_no_roles _ _ db _ _ _ Hg (or_introl Hr)).
    rewrite (run_userHasScopes_no_roles _ _ db' _ _ _ Hg (or_introl Hr)).
    unfold anyIdTruthy. cbn [projectId]. rewrite HP. split; reflexivity.
Qed.

Lemma explicit_project_wins_witness :
  Fixtures.projectId2 <> ""
  /\ run (Fixtures.repositories
            (Some {| SharedWorkflow.workflowId := Fixtures.workflowId1;
                     SharedWorkflow.projectId := Fixtures.projectId1 |}) None)
       (userHasScopes (Fixtures.hasGlobalScopeReturns false)
          (Fixtures.rolesWithScopeReturns ["project:admin"])
          (Fixtures.mockUser
             (Some [Fixtures.entry Fixtures.projectId1 "project:admin"]))
          Fixtures.scopeProjectRead false
          {| credentialId := None; workflowId := Some Fixtures.workflowId1;
             projectId := Some Fixtures.projectId2 |})
     = run Fixtures.noRecords
         (userHasScopes (Fixtures.hasGlobalScopeReturns false)
            (Fixtures.rolesWithScopeReturns ["project:admin"])
            (Fixtures.mockUser
               (Some [Fixtures.entry Fixtures.projectId1 "project:admin"]))
            Fixtures.scopeProjectRead false
            {| credentialId := None; workflowId := None;
               projectId := Some Fixtures.projectId2 |}).
Proof.
  split; [discriminate |].
  apply (explicit_project_wins (Fixtures.hasGlobalScopeReturns false)).
  discriminate.
Defined.

(** C6, as stated, fails when the [projectId] supplied is the empty
    string: the workflow-sharing record is read and decides, and the
    decision differs from the one of the same call without [workflowId]. *)
Lemma empty_project_id_yields_to_workflow :
  let db :=
    Fixtures.repositories
      (Some {| SharedWorkflow.workflowId := Fixtures.workflowId1;
               SharedWorkflow.projectId := Fixtures.projectId1 |}) None in
  let check w :=
    userHasScopes (Fixtures.hasGlobalScopeReturns false)
      (Fixtures.rolesWithScopeReturns ["project:admin"])
      (Fixtures.mockUser
         (Some [Fixtures.entry Fixtures.projectId1 "project:admin"]))
      Fixtures.scopeProjectRead false
      {| credentialId := None; workflowId := w; projectId := Some "" |} in
  run db (check (Some Fixtures.workflowId1))
  = ([ReadSharedWorkflow Fixtures.workflowId1], Fulfilled true)
  /\ run db (check None) = ([], Failed configurationError).
Proof. cbv zeta. split; reflexivity. Qed.

(** ** What the decision depends on *)

(** The block on [User.projectRoles] depends on the grant mapping only
    through [rolesWithScope('project', scopes)] and on the repositories
    only through the records of the identifiers that are looked up. *)
Lemma run_projectRolesGrant_ext
    rws1 rws2 db1 db2 (user : User.t) (scopes : list Scope) ids :
  rws1 "project" scopes = rws2 "project" scopes ->
  (Js.truthy (workflowId ids) = true ->
   sharedWorkflows db1 (Js.valueOf (workflowId ids))
   = sharedWorkflows db2 (Js.valueOf (workflowId ids))) ->
  (Js.truthy (credentialId ids) = true ->
   sharedCredentials db1 (Js.valueOf (credentialId ids))
   = sharedCredentials db2 (Js.valueOf (credentialId ids))) ->
  run db1 (projectRolesGrant rws1 user scopes ids)
  = run db2 (projectRolesGrant rws2 user scopes ids).
Proof.
  intros Hrws Hw Hc. unfold projectRolesGrant, roleInProjectGrants.
  rewrite Hrws.
  destruct (User.projectRoles user) as [[| pr l] |]; try reflexivity.
  destruct (Js.truthy (workflowId ids)) eqn:Tw;
    [specialize (Hw eq_refl) | clear Hw];
    (destruct (Js.truthy (credentialId ids)) eqn:Tc;
     [specialize (Hc eq_refl) | clear Hc]);
    along_tests; reflexivity.
Qed.

(** C8. [userHasScopes] is deterministic: for the same user, scopes,
    [globalOnly] flag and resource identifiers, two invocations in which
    [hasGlobalScope], [rolesWithScope] and the two repository lookups give
    the same results on what the function asks them run alike: same
    reads, same decision (grant, denial or error). *)
Theorem same_answers_same_decision
    hg1 rws1 db1 hg2 rws2 db2 user scopes globalOnly ids :
  hg1 user scopes allOfMode = hg2 user scopes allOfMode ->
  rws1 "project" scopes = rws2 "project" scopes ->
  (forall w, workflowId ids = Some w ->
             sharedWorkflows db1 w = sharedWorkflows db2 w) ->
  (forall c, credentialId ids = Some c ->
             sharedCredentials db1 c = sharedCredentials db2 c) ->
  run db1 (userHasScopes hg1 rws1 user scopes globalOnly ids)
  = run db2 (userHasScopes hg2 rws2 user scopes globalOnly ids).
Proof.
  intros Hg Hrws Hw Hc. rewrite !run_userHasScopes, Hg.
  rewrite (run_projectRolesGrant_ext rws1 rws2 db1 db2 user scopes ids Hrws).
  - reflexivity.
  - intros T. apply Hw, truthy_valueOf, T.
  - intros T. apply Hc, truthy_valueOf, T.
Qed.

(** C10. The grant mapping is consulted with resource kind ['project']
    only, whichever identifier was supplied: two grant mappings that agree
    on kind ['project'] give the same run, hence the same decision. *)
Theorem only_project_kind_matters
    hasGlobalScope rws1 rws2 db user scopes globalOnly ids :
  (forall s, rws1 "project" s = rws2 "project" s) ->
  run db (userHasScopes hasGlobalScope rws1 user scopes globalOnly ids)
  = run db (userHasScopes hasGlobalScope rws2 user scopes globalOnly ids).
Proof.
  intros Hrws. rewrite !run_userHasScopes.
  rewrite (run_projectRolesGrant_ext rws1 rws2 db db user scopes ids
             (Hrws scopes) (fun _ => eq_refl) (fun _ => eq_refl)).
  reflexivity.
Qed.

Lemma only_project_kind_matters_witness :
  (forall s,
      Fixtures.rolesByKind ["workflow:creator"] ["workflow:owner"] "project" s
      = Fixtures.rolesWithScopeReturns ["workflow:creator"] "project" s)
  /\ run
       (Fixtures.repositories
          (Some {| SharedWorkflow.workflowId := Fixtures.workflowId1;
                   SharedWorkflow.projectId := Fixtures.projectId1 |}) None)
       (userHasScopes (Fixtures.hasGlobalScopeReturns false)
          (Fixtures.rolesByKind ["workflow:creator"] ["workflow:owner"])
          (Fixtures.mockUser
             (Some [Fixtures.entry Fixtures.projectId1 "workflow:owner"]))
          Fixtures.scopeWorkflowCreate false
          (Fixtures.onlyWorkflow Fixtures.workflowId1))
     = run
         (Fixtures.repositories
            (Some {| SharedWorkflow.workflowId := Fixtures.workflowId1;
                     SharedWorkflow.projectId := Fixtures.projectId1 |}) None)
         (userHasScopes (Fixtures.hasGlobalScopeReturns false)
            (Fixtures.rolesWithScopeReturns ["workflow:creator"])
            (Fixtures.mockUser
               (Some [Fixtures.entry Fixtures.projectId1 "workflow:owner"]))
            Fixtures.scopeWorkflowCreate false
            (Fixtures.onlyWorkflow Fixtures.workflowId1)).
Proof.
  split; [intros s; reflexivity |].
  apply (only_project_kind_matters (Fixtures.hasGlobalScopeReturns false)).
  intros s; reflexivity.
Defined.

Lemma same_answers_same_decision_witness :
  let user :=
    Fixtures.mockUser
      (Some [Fixtures.entry Fixtures.projectId1 "credential:owner"]) in
  let sw :=
    {| SharedWorkflow.workflowId := Fixtures.workflowId1;
       SharedWorkflow.projectId := Fixtures.projectId2 |} in
  let sc :=
    {| SharedCredentials.credentialsId := Fixtures.credentialId1;
       SharedCredentials.projectId := Fixtures.projectId1 |} in
  let ids := Fixtures.onlyCredential Fixtures.credentialId1 in
  let db1 := Fixtures.repositories None (Some sc) in
  let db2 :=
    Fixtures.repositoriesAt Fixtures.workflowId1 sw
      Fixtures.credentialId1 sc in
  Fixtures.hasGlobalScopeReturns false user Fixtures.scopeCredentialDelete
    allOfMode
  = Fixtures.hasGlobalScopeOneOfOnly user Fixtures.scopeCredentialDelete
      allOfMode
  /\ Fixtures.rolesWithScopeReturns ["credential:owner"] "project"
       Fixtures.scopeCredentialDelete
     = Fixtures.rolesByKind ["credential:owner"] [] "project"
         Fixtures.scopeCredentialDelete
  /\ (forall w, workflowId ids = Some w ->
                sharedWorkflows db1 w = sharedWorkflows db2 w)
  /\ (forall c, credentialId ids = Some c ->
                sharedCredentials db1 c = sharedCredentials db2 c)
  /\ run db1
       (userHasScopes (Fixtures.hasGlobalScopeReturns false)
          (Fixtures.rolesWithScopeReturns ["credential:owner"]) user
          Fixtures.scopeCredentialDelete false ids)
     = run db2
         (userHasScopes Fixtures.hasGlobalScopeOneOfOnly
            (Fixtures.rolesByKind ["credential:owner"] []) user
            Fixtures.scopeCredentialDelete false ids).
Proof.
  cbv zeta. split; [reflexivity |]. split; [reflexivity |].
  split; [intros w E; discriminate E |].
  split; [intros c E; injection E as <-; reflexivity |].
  apply same_answers_same_decision.
  - reflexivity.
  - reflexivity.
  - intros w E; discriminate E.
  - intros c E; injection E as <-; reflexivity.
Defined.

(** ** Empty identifiers *)

(** By its truthiness tests the check treats a [projectId] supplied as the
    empty string exactly as an absent one. *)
Lemma empty_project_id_is_absent
    hasGlobalScope rolesWithScope db user scopes globalOnly c w :
  run db (userHasScopes hasGlobalScope rolesWithScope user scopes globalOnly
            {| credentialId := c; workflowId := w; projectId := Some "" |})
  = run db (userHasScopes hasGlobalScope rolesWithScope user scopes
              globalOnly
              {| credentialId := c; workflowId := w; projectId := None |}).
Proof.
  rewrite !run_userHasScopes. unfold projectRolesGrant, anyIdTruthy.
  destruct (hasGlobalScope user scopes allOfMode); [reflexivity |].
  destruct globalOnly; [reflexivity |].
  destruct (User.projectRoles user) as [[| pr l] |]; try reflexivity.
  along_tests; reflexivity.
Qed.

(** ** Which reads are performed *)

(** The reads of the block, along the tests of lines 32, 35 and 42: the
    credential lookup is skipped when the workflow lookup found a record
    whose [projectId] is truthy. *)
Lemma reads_projectRolesGrant rolesWithScope db user scopes ids :
  reads db (projectRolesGrant rolesWithScope user scopes ids) =
  match User.projectRoles user with
  | Some (_ :: _) =>
      if Js.truthy (projectId ids) then []
      else
        ((if Js.truthy (workflowId ids)
          then [ReadSharedWorkflow (Js.valueOf (workflowId ids))]
          else [])
         ++
         (if Js.truthy (credentialId ids)
             && negb (Js.truthy (workflowId ids)
                      && match sharedWorkflows db
                                 (Js.valueOf (workflowId ids)) with
                         | Some sw =>
                             Js.truthy (Some (SharedWorkflow.projectId sw))
                         | None => false
                         end)
          then [ReadSharedCredentials (Js.valueOf (credentialId ids))]
          else []))%list
  | _ => []
  end.
Proof.
  unfold reads, projectRolesGrant.
  destruct (User.projectRoles user) as [[| pr l] |]; try reflexivity.
  along_tests; reflexivity.
Qed.

Lemma reads_userHasScopes
    hasGlobalScope rolesWithScope db user scopes globalOnly ids :
  reads db (userHasScopes hasGlobalScope rolesWithScope user scopes
              globalOnly ids) =
  if hasGlobalScope user scopes allOfMode then []
  else if globalOnly then []
  else reads db (projectRolesGrant rolesWithScope user scopes ids).
Proof.
  unfold reads. rewrite run_userHasScopes.
  destruct (hasGlobalScope user scopes allOfMode); [reflexivity |].
  destruct globalOnly; [reflexivity |].
  destruct (run db (projectRolesGrant rolesWithScope user scopes ids))
    as [r [[|] | e]]; reflexivity.
Qed.

(** X1. The workflow-sharing repository is read with key [k] exactly when
    the global check failed, [globalOnly] is false, [User.projectRoles] is
    a non-empty list, no non-empty [projectId] was supplied and [k] is the
    non-empty [workflowId] supplied. *)
Theorem workflow_read_iff
    hasGlobalScope rolesWithScope db user scopes globalOnly ids k :
  In (ReadSharedWorkflow k)
     (reads db (userHasScopes hasGlobalScope rolesWithScope user scopes
                  globalOnly ids))
  <-> hasGlobalScope user scopes allOfMode = false
      /\ globalOnly = false
      /\ (exists pr l, User.projectRoles user = Some (pr :: l))
      /\ Js.truthy (projectId ids) = false
      /\ workflowId ids = Some k /\ k <> "".
Proof.
  rewrite reads_userHasScopes, reads_projectRolesGrant.
  destruct (hasGlobalScope user scopes allOfMode);
    [cbn; intuition congruence |].
  destruct globalOnly; [cbn; intuition congruence |].
  destruct (User.projectRoles user) as [[| pr l] |].
  1, 3: cbn; split; [contradiction |];
    intros (_ & _ & (pr' & l' & E) & _); discriminate E.
  destruct (Js.truthy (projectId ids)); [cbn; intuition congruence |].
  rewrite in_app_iff.
  assert (Hc : forall (b : bool) c,
             ~ In (ReadSharedWorkflow k)
                  (if b then [ReadSharedCredentials c] else []))
    by (intros [|] c; cbn; intuition discriminate).
  destruct (workflowId ids) as [w |]; cbn [Js.truthy Js.valueOf].
  - destruct (String.eqb_spec w "") as [-> | Hw]; cbn [negb].
    + split.
      * intros [[] | H]. exfalso. eapply Hc, H.
      * intros (_ & _ & _ & _ & E & Hk). injection E as <-. congruence.
    + split.
      * intros [[E | []] | H]; [| exfalso; eapply Hc, H].
        injection E as <-. repeat split; eauto.
      * intros (_ & _ & _ & _ & E & _). injection E as <-.
        left; left; reflexivity.
  - split.
    + intros [[] | H]. exfalso. eapply Hc, H.
    + intros (_ & _ & _ & _ & E & _). discriminate E.
Qed.

(** X2. The credential-sharing repository is read with key [k] exactly when
    the global check failed, [globalOnly] is false, [User.projectRoles] is
    a non-empty list, no non-empty [projectId] was supplied, [k] is the
    non-empty [credentialId] supplied, and no project was resolved from a
    [workflowId] (none supplied, no record found, or a record with an
    empty [projectId]). *)
Theorem credential_read_iff
    hasGlobalScope rolesWithScope db user scopes globalOnly ids k :
  In (ReadSharedCredentials k)
     (reads db (userHasScopes hasGlobalScope rolesWithScope user scopes
                  globalOnly ids))
  <-> hasGlobalScope user scopes allOfMode = false
      /\ globalOnly = false
      /\ (exists pr l, User.projectRoles user = Some (pr :: l))
      /\ Js.truthy (projectId ids) = false
      /\ credentialId ids = Some k /\ k <> ""
      /\ ~ (exists w sw,
               workflowId ids = Some w /\ w <> ""
               /\ sharedWorkflows db w = Some sw
               /\ SharedWorkflow.projectId sw <> "").
Proof.
  rewrite reads_userHasScopes, reads_projectRolesGrant.
  destruct (hasGlobalScope user scopes allOfMode);
    [cbn; intuition congruence |].
  destruct globalOnly; [cbn; intuition congruence |].
  destruct (User.projectRoles user) as [[| pr l] |].
  1, 3: cbn; split; [contradiction |];
    intros (_ & _ & (pr' & l' & E) & _); discriminate E.
  destruct (Js.truthy (projectId ids)); [cbn; intuition congruence |].
  rewrite in_app_iff.
  assert (Hw : forall (b : bool) w,
             ~ In (ReadSharedCredentials k)
                  (if b then [ReadSharedWorkflow w] else []))
    by (intros [|] w; cbn; intuition discriminate).
  destruct (credentialId ids) as [c |]; cbn [Js.truthy Js.valueOf];
    [destruct (String.eqb_spec c "") as [-> | Hc]; cbn [negb andb] |].
  2: {
    destruct (workflowId ids) as [w |]; cbn [Js.truthy Js.valueOf];
      [destruct (String.eqb_spec w "") as [-> | Hwne]; cbn [negb andb];
       [| destruct (sharedWorkflows db w) as [sw |] eqn:Hsw;
          [destruct (String.eqb_spec (SharedWorkflow.projectId sw) "")
             as [Hp | Hp]; cbn [negb] |]] |].
    all: split;
      [ intros [H | H]; [exfalso; cbn in H; intuition discriminate |];
        cbn in H; try contradiction; destruct H as [E | []];
        injection E as <-;
        repeat split; eauto;
        intros (w' & sw' & E1 & E2 & E3 & E4); try congruence
      | intros (_ & _ & _ & _ & E & Hk & Hno); injection E as <-; cbn;
        try (right; left; reflexivity);
        exfalso; apply Hno; eauto 6 ].
  }
  all: split;
    [ intros [H | H]; [exfalso; eapply Hw, H | contradiction]
    | intros (_ & _ & _ & _ & E & Hk & _); congruence ].
Qed.


(** ** The project evaluated *)

(** The block on [User.projectRoles] settles on the role held in the
    project that was resolved. *)
Lemma settlement_projectRolesGrant rolesWithScope db user scopes ids :
  settlement db (projectRolesGrant rolesWithScope user scopes ids) =
  Fulfilled
    match User.projectRoles user with
    | Some (pr :: l) =>
        Js.truthy (resolveProject db ids)
        && roleInProjectGrants rolesWithScope (pr :: l) scopes
             (Js.valueOf (resolveProject db ids))
    | _ => false
    end.
Proof.
  unfold settlement, projectRolesGrant, resolveProject.
  destruct (User.projectRoles user) as [[| pr l] |]; try reflexivity.
  destruct (Js.truthy (projectId ids)) eqn:Hp;
    destruct (Js.truthy (workflowId ids)) eqn:Hw;
    destruct (Js.truthy (credentialId ids)) eqn:Hc;
    repeat (cbn; rewrite ?Hp, ?Hw, ?Hc); try reflexivity;
    try ((destruct (sharedWorkflows db _) as [sw |];
          [destruct (SharedWorkflow.projectId sw =? "") eqn:Esw |]);
         repeat (cbn; rewrite ?Hp, ?Hw, ?Hc, ?Esw); try reflexivity);
    (destruct (sharedCredentials db _) as [sc |];
     [destruct (SharedCredentials.projectId sc =? "") eqn:Esc |]);
    repeat (cbn; rewrite ?Hp, ?Hw, ?Hc, ?Esw, ?Esc); reflexivity.
Qed.

Lemma settlement_userHasScopes
    hasGlobalScope rolesWithScope db user scopes globalOnly ids :
  settlement db (userHasScopes hasGlobalScope rolesWithScope user scopes
                   globalOnly ids) =
  if hasGlobalScope user scopes allOfMode then Fulfilled true
  else if globalOnly then Fulfilled false
  else
    match settlement db (projectRolesGrant rolesWithScope user scopes ids)
    with
    | Fulfilled true => Fulfilled true
    | Fulfilled false =>
        if anyIdTruthy ids then Fulfilled false
        else Failed configurationError
    | Failed e => Failed e
    end.
Proof.
  unfold settlement. rewrite run_userHasScopes.
  destruct (hasGlobalScope user scopes allOfMode); [reflexivity |].
  destruct globalOnly; [reflexivity |].
  destruct (run db (projectRolesGrant rolesWithScope user scopes ids))
    as [r [[|] | e]]; reflexivity.
Qed.

(** A role that grants is the role of an entry of the list. *)
Lemma roleInProjectGrants_true rolesWithScope l scopes p :
  roleInProjectGrants rolesWithScope l scopes p = true ->
  exists pr, In pr l /\ ProjectRole.projectId pr = p
             /\ In (ProjectRole.role pr) (rolesWithScope "project" scopes).
Proof.
  unfold roleInProjectGrants.
  destruct (find _ l) as [pr |] eqn:Hf; [| discriminate].
  intros H. apply find_some in Hf. destruct Hf as [Hin E].
  apply String.eqb_eq in E. apply includes_In in H. eauto.
Qed.

Lemma run_reads_settlement {A} db (p : Promise A) :
  run db p = (reads db p, settlement db p).
Proof. unfold reads, settlement. destruct (run db p); reflexivity. Qed.

Lemma eqb_empty_false (s : string) : s <> "" -> (s =? "") = false.
Proof. intros H. apply String.eqb_neq. assumption. Qed.

(** X4. Resolution order, second half: when no non-empty [projectId] is
    supplied and the record found for the [workflowId] names a project,
    that project is the one evaluated and a [credentialId] supplied with
    it is ignored: the run is the run of the same call without the
    [credentialId]. *)
Theorem resolved_workflow_wins
    hasGlobalScope rolesWithScope db user scopes globalOnly p c w sw :
  Js.truthy p = false ->
  w <> "" ->
  sharedWorkflows db w = Some sw ->
  SharedWorkflow.projectId sw <> "" ->
  run db (userHasScopes hasGlobalScope rolesWithScope user scopes globalOnly
            {| credentialId := c; workflowId := Some w; projectId := p |})
  = run db (userHasScopes hasGlobalScope rolesWithScope user scopes
              globalOnly
              {| credentialId := None; workflowId := Some w;
                 projectId := p |}).
Proof.
  intros Hp Hw Hsw Hne.
  apply eqb_empty_false in Hw. apply eqb_empty_false in Hne.
  rewrite !run_reads_settlement.
  rewrite !reads_userHasScopes, !reads_projectRolesGrant.
  rewrite !settlement_userHasScopes, !settlement_projectRolesGrant.
  unfold resolveProject, anyIdTruthy. cbn.
  rewrite Hp, Hw, Hsw. cbn. rewrite Hne. cbn.
  rewrite andb_false_r. reflexivity.
Qed.

Lemma resolved_workflow_wins_witness :
  let sw :=
    {| SharedWorkflow.workflowId := Fixtures.workflowId1;
       SharedWorkflow.projectId := Fixtures.projectId1 |} in
  let sc :=
    {| SharedCredentials.credentialsId := Fixtures.credentialId1;
       SharedCredentials.projectId := Fixtures.projectId2 |} in
  let db := Fixtures.repositories (Some sw) (Some sc) in
  let user :=
    Fixtures.mockUser
      (Some [Fixtures.entry Fixtures.projectId2 "workflow:creator"]) in
  Js.truthy None = false
  /\ Fixtures.workflowId1 <> ""
  /\ sharedWorkflows db Fixtures.workflowId1 = Some sw
  /\ SharedWorkflow.projectId sw <> ""
  /\ run db
       (userHasScopes (Fixtures.hasGlobalScopeReturns false)
          (Fixtures.rolesWithScopeReturns ["workflow:creator"]) user
          Fixtures.scopeWorkflowCreate false
          {| credentialId := Some Fixtures.credentialId1;
             workflowId := Some Fixtures.workflowId1;
             projectId := None |})
     = run db
         (userHasScopes (Fixtures.hasGlobalScopeReturns false)
            (Fixtures.rolesWithScopeReturns ["workflow:creator"]) user
            Fixtures.scopeWorkflowCreate false
            {| credentialId := None;
               workflowId := Some Fixtures.workflowId1;
               projectId := None |}).
Proof.
  cbv zeta. split; [reflexivity |]. split; [discriminate |].
  split; [reflexivity |]. split; [discriminate |].
  apply (resolved_workflow_wins (Fixtures.hasGlobalScopeReturns false)
           (Fixtures.rolesWithScopeReturns ["workflow:creator"])
           _ _ _ _ None (Some Fixtures.credentialId1) Fixtures.workflowId1
           {| SharedWorkflow.workflowId := Fixtures.workflowId1;
              SharedWorkflow.projectId := Fixtures.projectId1 |}).
  - reflexivity.
  - discriminate.
  - reflexivity.
  - discriminate.
Defined.

(** X5. Fallback to the credential: when no non-empty [projectId] is
    supplied and no record is found for the non-empty [workflowId], a
    non-empty [credentialId] is looked up next, and the project of its
    record is the one evaluated against the user's project roles. *)
Theorem credential_fallback
    hasGlobalScope rolesWithScope db user scopes ids l w c sc :
  hasGlobalScope user scopes allOfMode = false ->
  User.projectRoles user = Some l -> l <> [] ->
  Js.truthy (projectId ids) = false ->
  workflowId ids = Some w -> w <> "" ->
  sharedWorkflows db w = None ->
  credentialId ids = Some c -> c <> "" ->
  sharedCredentials db c = Some sc ->
  SharedCredentials.projectId sc <> "" ->
  run db (userHasScopes hasGlobalScope rolesWithScope user scopes false ids)
  = ([ReadSharedWorkflow w; ReadSharedCredentials c],
     Fulfilled (roleInProjectGrants rolesWithScope l scopes
                  (SharedCredentials.projectId sc))).
Proof.
  intros Hg Hr Hl Hp Hw Hwne Hsw Hc Hcne Hsc Hne.
  destruct l as [| pr l]; [congruence | clear Hl].
  apply eqb_empty_false in Hwne. apply eqb_empty_false in Hcne.
  apply eqb_empty_false in Hne.
  rewrite run_reads_settlement.
  rewrite reads_userHasScopes, reads_projectRolesGrant.
  rewrite settlement_userHasScopes, settlement_projectRolesGrant.
  unfold resolveProject, anyIdTruthy.
  rewrite Hg, Hr, Hp, Hw, Hc.
  repeat (cbn; rewrite ?Hp, ?Hwne, ?Hcne, ?Hsw, ?Hsc, ?Hne).
  destruct (roleInProjectGrants _ _ _ _); reflexivity.
Qed.

Lemma credential_fallback_witness :
  let sc :=
    {| SharedCredentials.credentialsId := Fixtures.credentialId1;
       SharedCredentials.projectId := Fixtures.projectId1 |} in
  let db := Fixtures.repositories None (Some sc) in
  let l := [Fixtures.entry Fixtures.projectId1 "credential:owner"] in
  let user := Fixtures.mockUser (Some l) in
  let ids :=
    {| credentialId := Some Fixtures.credentialId1;
       workflowId := Some Fixtures.workflowId1;
       projectId := None |} in
  run db
    (userHasScopes (Fixtures.hasGlobalScopeReturns false)
       (Fixtures.rolesWithScopeReturns ["credential:owner"]) user
       Fixtures.scopeCredentialDelete false ids)
  = ([ReadSharedWorkflow Fixtures.workflowId1;
      ReadSharedCredentials Fixtures.credentialId1],
     Fulfilled true).
Proof.
  cbv zeta.
  apply (credential_fallback (Fixtures.hasGlobalScopeReturns false)
           (Fixtures.rolesWithScopeReturns ["credential:owner"])
           (Fixtures.repositories None
              (Some {| SharedCredentials.credentialsId :=
                         Fixtures.credentialId1;
                       SharedCredentials.projectId := Fixtures.projectId1 |}))
           (Fixtures.mockUser
              (Some [Fixtures.entry Fixtures.projectId1 "credential:owner"]))
           Fixtures.scopeCredentialDelete
           {| credentialId := Some Fixtures.credentialId1;
              workflowId := Some Fixtures.workflowId1;
              projectId := None |}
           [Fixtures.entry Fixtures.projectId1 "credential:owner"]
           Fixtures.workflowId1 Fixtures.credentialId1
           {| SharedCredentials.credentialsId := Fixtures.credentialId1;
              SharedCredentials.projectId := Fixtures.projectId1 |}
           eq_refl eq_refl ltac:(discriminate) eq_refl eq_refl
           ltac:(discriminate) eq_refl eq_refl ltac:(discriminate) eq_refl
           ltac:(discriminate)).
Defined.

(** X6. An identifier supplied as the empty string is treated exactly as an
    absent one, for each of [projectId], [workflowId] and [credentialId]:
    same reads, same decision. *)
Theorem empty_identifiers_are_absent
    hasGlobalScope rolesWithScope db user scopes globalOnly p w c :
  run db (userHasScopes hasGlobalScope rolesWithScope user scopes globalOnly
            {| credentialId := c; workflowId := w; projectId := Some "" |})
  = run db (userHasScopes hasGlobalScope rolesWithScope user scopes
              globalOnly
              {| credentialId := c; workflowId := w; projectId := None |})
  /\ run db (userHasScopes hasGlobalScope rolesWithScope user scopes
               globalOnly
               {| credentialId := c; workflowId := Some ""; projectId := p |})
     = run db (userHasScopes hasGlobalScope rolesWithScope user scopes
                 globalOnly
                 {| credentialId := c; workflowId := None; projectId := p |})
  /\ run db (userHasScopes hasGlobalScope rolesWithScope user scopes
               globalOnly
               {| credentialId := Some ""; workflowId := w; projectId := p |})
     = run db (userHasScopes hasGlobalScope rolesWithScope user scopes
                 globalOnly
                 {| credentialId := None; workflowId := w; projectId := p |}).
Proof.
  repeat split; rewrite !run_userHasScopes;
    unfold projectRolesGrant, anyIdTruthy;
    (destruct (hasGlobalScope user scopes allOfMode); [reflexivity |]);
    (destruct globalOnly; [reflexivity |]);
    (destruct (User.projectRoles user) as [[| pr l] |];
     [cbn; reflexivity | | cbn; reflexivity]);
    along_tests; reflexivity.
Qed.

(** X7. The configuration error is the only rejection, and it is raised
    without any repository having been read. *)
Theorem rejection_is_configuration_error_without_reads
    hasGlobalScope rolesWithScope db user scopes globalOnly ids e :
  settlement db (userHasScopes hasGlobalScope rolesWithScope user scopes
                   globalOnly ids) = Failed e ->
  e = configurationError
  /\ reads db (userHasScopes hasGlobalScope rolesWithScope user scopes
                 globalOnly ids) = [].
Proof.
  rewrite settlement_userHasScopes, reads_userHasScopes.
  destruct (hasGlobalScope user scopes allOfMode); [discriminate |].
  destruct globalOnly; [discriminate |].
  rewrite settlement_projectRolesGrant.
  destruct (anyIdTruthy ids) eqn:Hany.
  - destruct (match User.projectRoles user with
              | Some (pr :: l) => _
              | _ => false
              end); discriminate.
  - intros H. split.
    + destruct (match User.projectRoles user with
                | Some (pr :: l) => _
                | _ => false
                end); congruence.
    + unfold reads.
      rewrite (projectRolesGrant_no_ids rolesWithScope db user scopes ids
                 Hany).
      reflexivity.
Qed.

Lemma rejection_is_configuration_error_without_reads_witness :
  settlement Fixtures.noRecords
    (userHasScopes (Fixtures.hasGlobalScopeReturns false)
       (Fixtures.rolesWithScopeReturns ["project:admin"])
       (Fixtures.mockUser
          (Some [Fixtures.entry Fixtures.projectId1 "project:admin"]))
       Fixtures.scopeProjectRead false Fixtures.noIds)
  = Failed configurationError
  /\ configurationError = configurationError
  /\ reads Fixtures.noRecords
       (userHasScopes (Fixtures.hasGlobalScopeReturns false)
          (Fixtures.rolesWithScopeReturns ["project:admin"])
          (Fixtures.mockUser
             (Some [Fixtures.entry Fixtures.projectId1 "project:admin"]))
          Fixtures.scopeProjectRead false Fixtures.noIds)
     = [].
Proof.
  split; [reflexivity |].
  apply (rejection_is_configuration_error_without_reads
           (Fixtures.hasGlobalScopeReturns false)).
  reflexivity.
Defined.

(** X8. A grant is always backed by the global role or by a project role:
    when the call returns [true], either the global check succeeded, or
    [globalOnly] is false and the user's list holds an entry whose role is
    among [rolesWithScope('project', scopes)] and whose non-empty project
    is the [projectId] supplied or the project of the record found for
    the [workflowId] or the [credentialId] supplied. *)
Theorem grant_has_a_ground
    hasGlobalScope rolesWithScope db user scopes globalOnly ids :
  settlement db (userHasScopes hasGlobalScope rolesWithScope user scopes
                   globalOnly ids) = Fulfilled true ->
  hasGlobalScope user scopes allOfMode = true
  \/ (globalOnly = false
      /\ exists l pr,
           User.projectRoles user = Some l /\ In pr l
           /\ In (ProjectRole.role pr) (rolesWithScope "project" scopes)
           /\ ProjectRole.projectId pr <> ""
           /\ (projectId ids = Some (ProjectRole.projectId pr)
               \/ (exists w sw,
                      workflowId ids = Some w
                      /\ sharedWorkflows db w = Some sw
                      /\ SharedWorkflow.projectId sw
                         = ProjectRole.projectId pr)
               \/ (exists c sc,
                      credentialId ids = Some c
                      /\ sharedCredentials db c = Some sc
                      /\ SharedCredentials.projectId sc
                         = ProjectRole.projectId pr))).
Proof.
  rewrite settlement_userHasScopes.
  destruct (hasGlobalScope user scopes allOfMode); [left; reflexivity |].
  destruct globalOnly; [discriminate |].
  rewrite settlement_projectRolesGrant. intros H. right. split; [reflexivity |].
  destruct (User.projectRoles user) as [[| pr0 l] |] eqn:Hr;
    try (destruct (anyIdTruthy ids); discriminate).
  destruct (Js.truthy (resolveProject db ids)
            && roleInProjectGrants rolesWithScope (pr0 :: l) scopes
                 (Js.valueOf (resolveProject db ids))) eqn:Hb;
    [| destruct (anyIdTruthy ids); discriminate].
  apply andb_true_iff in Hb. destruct Hb as [Ht Hrole].
  apply roleInProjectGrants_true in Hrole.
  destruct Hrole as (pr & Hin & Hpid & Hgr).
  pose proof (truthy_valueOf _ Ht) as Hres. rewrite <- Hpid in Hres.
  assert (Hne : ProjectRole.projectId pr <> "")
    by (rewrite Hres in Ht; apply truthy_Some; exact Ht).
  exists (pr0 :: l), pr. repeat split; try assumption.
  clear Ht Hin Hgr Hpid H. revert Hres. unfold resolveProject.
  destruct (Js.truthy (projectId ids)) eqn:Hp; cbn.
  - rewrite Hp. cbn. auto.
  - destruct (Js.truthy (workflowId ids)) eqn:Hw; cbn.
    + pose proof (truthy_valueOf _ Hw) as Ew.
      destruct (sharedWorkflows db (Js.valueOf (workflowId ids)))
        as [sw |] eqn:Hsw.
      * destruct (Js.truthy (Some (SharedWorkflow.projectId sw))) eqn:Tsw;
          cbn.
        -- intros E. injection E as E. right; left. eauto.
        -- destruct (Js.truthy (credentialId ids)) eqn:Hc; cbn.
           ++ pose proof (truthy_valueOf _ Hc) as Ec.
              destruct (sharedCredentials db _) as [sc |] eqn:Hsc.
              ** intros E. injection E as E. right; right. eauto.
              ** intros E. injection E as E. right; left. eauto.
           ++ intros E. injection E as E. right; left. eauto.
      * rewrite Hp. cbn.
        destruct (Js.truthy (credentialId ids)) eqn:Hc; cbn.
        -- pose proof (truthy_valueOf _ Hc) as Ec.
           destruct (sharedCredentials db _) as [sc |] eqn:Hsc.
           ++ intros E. injection E as E. right; right. eauto.
           ++ auto.
        -- auto.
    + rewrite Hp. cbn.
      destruct (Js.truthy (credentialId ids)) eqn:Hc; cbn.
      * pose proof (truthy_valueOf _ Hc) as Ec.
        destruct (sharedCredentials db _) as [sc |] eqn:Hsc.
        -- intros E. injection E as E. right; right. eauto.
        -- auto.
      * auto.
Qed.

Lemma grant_has_a_ground_witness :
  let sw :=
    {| SharedWorkflow.workflowId := Fixtures.workflowId1;
       SharedWorkflow.projectId := Fixtures.projectId1 |} in
  let db := Fixtures.repositories (Some sw) None in
  let l := [Fixtures.entry Fixtures.projectId1 "workflow:creator"] in
  let user := Fixtures.mockUser (Some l) in
  let ids := Fixtures.onlyWorkflow Fixtures.workflowId1 in
  let hg := Fixtures.hasGlobalScopeReturns false in
  let rws := Fixtures.rolesWithScopeReturns ["workflow:creator"] in
  settlement db
    (userHasScopes hg rws user Fixtures.scopeWorkflowCreate false ids)
  = Fulfilled true
  /\ (hg user Fixtures.scopeWorkflowCreate allOfMode = true
      \/ (false = false
          /\ exists l pr,
               User.projectRoles user = Some l /\ In pr l
               /\ In (ProjectRole.role pr)
                     (rws "project" Fixtures.scopeWorkflowCreate)
               /\ ProjectRole.projectId pr <> ""
               /\ (projectId ids = Some (ProjectRole.projectId pr)
                   \/ (exists w sw,
                          workflowId ids = Some w
                          /\ sharedWorkflows db w = Some sw
                          /\ SharedWorkflow.projectId sw
                             = ProjectRole.projectId pr)
                   \/ (exists c sc,
                          credentialId ids = Some c
                          /\ sharedCredentials db c = Some sc
                          /\ SharedCredentials.projectId sc
                             = ProjectRole.projectId pr)))).
Proof.
  cbv zeta. split; [reflexivity |].
  apply (grant_has_a_ground (Fixtures.hasGlobalScopeReturns false)
           (Fixtures.rolesWithScopeReturns ["workflow:creator"])).
  reflexivity.
Defined.

(** ** Growing the grant mapping *)

Lemma roleInProjectGrants_incl rws1 rws2 l scopes p :
  incl (rws1 "project" scopes) (rws2 "project" scopes) ->
  roleInProjectGrants rws1 l scopes p = true ->
  roleInProjectGrants rws2 l scopes p = true.
Proof.
  unfold roleInProjectGrants. intros Hincl.
  destruct (find _ l) as [pr |]; [| discriminate].
  rewrite !includes_In. apply Hincl.
Qed.

(** X9. The decision is monotone in the grant mapping: if every role that
    [rolesWithScope('project', scopes)] lists under one mapping is listed
    under another, a call granted under the first is granted under the
    second. *)
Theorem grant_monotone_in_roles_with_scope
    hasGlobalScope rws1 rws2 db user scopes globalOnly ids :
  incl (rws1 "project" scopes) (rws2 "project" scopes) ->
  settlement db (userHasScopes hasGlobalScope rws1 user scopes globalOnly ids)
  = Fulfilled true ->
  settlement db (userHasScopes hasGlobalScope rws2 user scopes globalOnly ids)
  = Fulfilled true.
Proof.
  intros Hincl. rewrite !settlement_userHasScopes.
  destruct (hasGlobalScope user scopes allOfMode); [reflexivity |].
  destruct globalOnly; [discriminate |].
  rewrite !settlement_projectRolesGrant.
  destruct (User.projectRoles user) as [[| pr l] |];
    try (destruct (anyIdTruthy ids); discriminate).
  destruct (Js.truthy (resolveProject db ids)); cbn;
    [| destruct (anyIdTruthy ids); discriminate].
  destruct (roleInProjectGrants rws1 (pr :: l) scopes _) eqn:H1;
    [| destruct (anyIdTruthy ids); discriminate].
  rewrite (roleInProjectGrants_incl rws1 rws2 _ _ _ Hincl H1). reflexivity.
Qed.

Lemma grant_monotone_in_roles_with_scope_witness :
  let user :=
    Fixtures.mockUser
      (Some [Fixtures.entry Fixtures.projectId1 "project:editor"]) in
  let ids := Fixtures.onlyProject Fixtures.projectId1 in
  let hg := Fixtures.hasGlobalScopeReturns false in
  let rws1 := Fixtures.rolesWithScopeReturns ["project:editor"] in
  let rws2 :=
    Fixtures.rolesWithScopeReturns ["project:admin"; "project:editor"] in
  incl (rws1 "project" Fixtures.scopeProjectRead)
       (rws2 "project" Fixtures.scopeProjectRead)
  /\ settlement Fixtures.noRecords
       (userHasScopes hg rws1 user Fixtures.scopeProjectRead false ids)
     = Fulfilled true
  /\ settlement Fixtures.noRecords
       (userHasScopes hg rws2 user Fixtures.scopeProjectRead false ids)
     = Fulfilled true.
Proof.
  cbv zeta.
  assert (Hincl : incl
            (Fixtures.rolesWithScopeReturns ["project:editor"] "project"
               Fixtures.scopeProjectRead)
            (Fixtures.rolesWithScopeReturns
               ["project:admin"; "project:editor"] "project"
               Fixtures.scopeProjectRead))
    by (intros r [<- | []]; right; left; reflexivity).
  split; [exact Hincl |]. split; [reflexivity |].
  apply (grant_monotone_in_roles_with_scope
           (Fixtures.hasGlobalScopeReturns false)
           (Fixtures.rolesWithScopeReturns ["project:editor"])
           (Fixtures.rolesWithScopeReturns
              ["project:admin"; "project:editor"])
           _ _ _ _ _ Hincl).
  reflexivity.
Defined.

(** ** Duplicate entries and other projects *)

Lemma find_first_entry (pre post : list ProjectRole.t) (pr : ProjectRole.t) :
  (forall x, In x pre ->
             ProjectRole.projectId x <> ProjectRole.projectId pr) ->
  find (fun x => ProjectRole.projectId x =? ProjectRole.projectId pr)
       (pre ++ pr :: post)%list
  = Some pr.
Proof.
  induction pre as [| x pre IH]; cbn; intros H.
  - rewrite String.eqb_refl. reflexivity.
  - destruct (String.eqb_spec (ProjectRole.projectId x)
                (ProjectRole.projectId pr)) as [E | NE].
    + exfalso. apply (H x); auto.
    + apply IH. intros y Hy. apply H. auto.
Qed.

Lemma find_filter {A} (f : A -> bool) (l : list A) :
  find f l = hd_error (filter f l).
Proof.
  induction l as [| x l IH]; cbn; [reflexivity |].
  destruct (f x); [reflexivity | exact IH].
Qed.

(** X10. Among several entries for the same project the first one decides:
    for a non-empty [projectId] [P] supplied explicitly, if the first
    entry for [P] in the user's list has role [R], the call returns [true]
    exactly when [R] is among [rolesWithScope('project', scopes)],
    whatever entries follow it. *)
Theorem first_entry_decides
    hasGlobalScope rolesWithScope db user scopes ids P R pre post :
  hasGlobalScope user scopes allOfMode = false ->
  projectId ids = Some P -> P <> "" ->
  User.projectRoles user
  = Some (pre ++ {| ProjectRole.projectId := P; ProjectRole.role := R |}
              :: post)%list ->
  (forall x, In x pre -> ProjectRole.projectId x <> P) ->
  exists b,
    run db (userHasScopes hasGlobalScope rolesWithScope user scopes
              false ids) = ([], Fulfilled b)
    /\ (b = true <-> In R (rolesWithScope "project" scopes)).
Proof.
  intros Hg Hp HP Hr Hpre.
  assert (Ht : Js.truthy (projectId ids) = true)
    by (rewrite Hp; apply truthy_Some; assumption).
  exists (Js.includes (rolesWithScope "project" scopes) R).
  split; [| apply includes_In].
  rewrite (run_userHasScopes_explicit _ _ _ _ _ _ _ Hg Hr Ht).
  unfold roleInProjectGrants. rewrite Hp. cbn [Js.valueOf].
  pose proof (find_first_entry pre post
                {| ProjectRole.projectId := P; ProjectRole.role := R |}
                Hpre) as Hf.
  cbn in Hf. rewrite Hf. reflexivity.
Qed.

(** X11. Roles held in other projects are irrelevant: for a non-empty
    [projectId] [P] supplied explicitly, two users for whom the global
    check fails and whose lists hold the same entries for [P], in the same
    order, get the same run. *)
Theorem other_projects_are_irrelevant
    hasGlobalScope rolesWithScope db u1 u2 scopes ids P l1 l2 :
  hasGlobalScope u1 scopes allOfMode = false ->
  hasGlobalScope u2 scopes allOfMode = false ->
  projectId ids = Some P -> P <> "" ->
  User.projectRoles u1 = Some l1 ->
  User.projectRoles u2 = Some l2 ->
  filter (fun x => ProjectRole.projectId x =? P) l1
  = filter (fun x => ProjectRole.projectId x =? P) l2 ->
  run db (userHasScopes hasGlobalScope rolesWithScope u1 scopes false ids)
  = run db (userHasScopes hasGlobalScope rolesWithScope u2 scopes false ids).
Proof.
  intros Hg1 Hg2 Hp HP Hr1 Hr2 Hf.
  assert (Ht : Js.truthy (projectId ids) = true)
    by (rewrite Hp; apply truthy_Some; assumption).
  rewrite (run_userHasScopes_explicit _ _ _ _ _ _ _ Hg1 Hr1 Ht).
  rewrite (run_userHasScopes_explicit _ _ _ _ _ _ _ Hg2 Hr2 Ht).
  unfold roleInProjectGrants. rewrite Hp. cbn [Js.valueOf].
  rewrite !find_filter, Hf. reflexivity.
Qed.

Lemma first_entry_decides_witness :
  let pre := [Fixtures.entry Fixtures.projectId2 "project:admin"] in
  let post := [Fixtures.entry Fixtures.projectId1 "project:admin"] in
  let user :=
    Fixtures.mockUser
      (Some (pre ++ Fixtures.entry Fixtures.projectId1 "project:viewer"
                 :: post)%list) in
  Fixtures.projectId1 <> ""
  /\ (forall x, In x pre -> ProjectRole.projectId x <> Fixtures.projectId1)
  /\ exists b,
       run Fixtures.noRecords
         (userHasScopes (Fixtures.hasGlobalScopeReturns false)
            (Fixtures.rolesWithScopeReturns ["project:admin"]) user
            Fixtures.scopeProjectRead false
            (Fixtures.onlyProject Fixtures.projectId1))
       = ([], Fulfilled b)
       /\ (b = true <->
           In "project:viewer"
              (Fixtures.rolesWithScopeReturns ["project:admin"] "project"
                 Fixtures.scopeProjectRead)).
Proof.
  cbv zeta.
  assert (Hpre : forall x,
             In x [Fixtures.entry Fixtures.projectId2 "project:admin"] ->
             ProjectRole.projectId x <> Fixtures.projectId1)
    by (intros x [<- | []]; discriminate).
  split; [discriminate |]. split; [exact Hpre |].
  apply (first_entry_decides (Fixtures.hasGlobalScopeReturns false)
           (Fixtures.rolesWithScopeReturns ["project:admin"])
           Fixtures.noRecords
           (Fixtures.mockUser
              (Some ([Fixtures.entry Fixtures.projectId2 "project:admin"]
                     ++ Fixtures.entry Fixtures.projectId1 "project:viewer"
                     :: [Fixtures.entry Fixtures.projectId1
                           "project:admin"])%list))
           Fixtures.scopeProjectRead
           (Fixtures.onlyProject Fixtures.projectId1)
           Fixtures.projectId1 "project:viewer"
           [Fixtures.entry Fixtures.projectId2 "project:admin"]
           [Fixtures.entry Fixtures.projectId1 "project:admin"]
           eq_refl eq_refl ltac:(discriminate) eq_refl Hpre).
Defined.

Lemma other_projects_are_irrelevant_witness :
  let l1 :=
    [Fixtures.entry Fixtures.projectId1 "project:admin";
     Fixtures.entry Fixtures.projectId2 "project:viewer"] in
  let l2 :=
    [Fixtures.entry "project-id-3" "project:editor";
     Fixtures.entry Fixtures.projectId1 "project:admin"] in
  let ids := Fixtures.onlyProject Fixtures.projectId1 in
  filter (fun x => ProjectRole.projectId x =? Fixtures.projectId1) l1
  = filter (fun x => ProjectRole.projectId x =? Fixtures.projectId1) l2
  /\ run Fixtures.noRecords
       (userHasScopes (Fixtures.hasGlobalScopeReturns false)
          (Fixtures.rolesWithScopeReturns ["project:admin"])
          (Fixtures.mockUser (Some l1)) Fixtures.scopeProjectRead false ids)
     = run Fixtures.noRecords
         (userHasScopes (Fixtures.hasGlobalScopeReturns false)
            (Fixtures.rolesWithScopeReturns ["project:admin"])
            (Fixtures.mockUser (Some l2)) Fixtures.scopeProjectRead false
            ids).
Proof.
  cbv zeta. split; [reflexivity |].
  apply (other_projects_are_irrelevant
           (Fixtures.hasGlobalScopeReturns false)
           (Fixtures.rolesWithScopeReturns ["project:admin"])
           Fixtures.noRecords
           (Fixtures.mockUser
              (Some [Fixtures.entry Fixtures.projectId1 "project:admin";
                     Fixtures.entry Fixtures.projectId2 "project:viewer"]))
           (Fixtures.mockUser
              (Some [Fixtures.entry "project-id-3" "project:editor";
                     Fixtures.entry Fixtures.projectId1 "project:admin"]))
           Fixtures.scopeProjectRead
           (Fixtures.onlyProject Fixtures.projectId1)
           Fixtures.projectId1
           [Fixtures.entry Fixtures.projectId1 "project:admin";
            Fixtures.entry Fixtures.projectId2 "project:viewer"]
           [Fixtures.entry "project-id-3" "project:editor";
            Fixtures.entry Fixtures.projectId1 "project:admin"]
           eq_refl eq_refl eq_refl ltac:(discriminate) eq_refl eq_refl
           eq_refl).
Defined.

(** ** The migration *)

(** X12. [down] undoes [up]: with a query runner for which dropping a
    column that was just added restores the schema, a schema migrated by a
    fulfilled [up] is restored by [down], which fulfils as well; [down]
    drops the two columns in the reverse order of their addition. *)
Theorem down_undoes_up
    (Schema QueryError : Type)
    (addColumn : string -> TableColumn.t -> Schema
                 -> Schema * option QueryError)
    (dropColumn : string -> string -> Schema -> Schema * option QueryError)
    (schema migrated : Schema) :
  (forall table column s s',
      addColumn table column s = (s', None) ->
      dropColumn table (TableColumn.name column) s' = (s, None)) ->
  AddOrganizationFields1746000000000.up Schema QueryError addColumn schema
  = (migrated, None) ->
  AddOrganizationFields1746000000000.down Schema QueryError dropColumn
    migrated
  = (schema, None).
Proof.
  intros Hlaw.
  unfold AddOrganizationFields1746000000000.up,
    AddOrganizationFields1746000000000.down.
  destruct (addColumn "project" _ schema) as [s1 [e |]] eqn:H1;
    [discriminate |].
  intros H2.
  apply Hlaw in H1. apply Hlaw in H2. cbn in H1, H2.
  rewrite H2. exact H1.
Qed.

Lemma ListSchema_drop_added table column (s s' : ListSchema.t) :
  ListSchema.addColumn table column s = (s', None) ->
  ListSchema.dropColumn table (TableColumn.name column) s' = (s, None).
Proof.
  unfold ListSchema.addColumn, ListSchema.dropColumn.
  destruct (existsb _ s); [discriminate |].
  intros E. injection E as <-.
  cbn. unfold ListSchema.isColumn. cbn.
  rewrite !String.eqb_refl. reflexivity.
Qed.

Lemma down_undoes_up_witness :
  let schema : ListSchema.t :=
    [("user",
      {| TableColumn.name := "email"; TableColumn.type := "varchar";
         TableColumn.length := Some "255";
         TableColumn.isNullable := true |})] in
  let migrated : ListSchema.t :=
    ("user", AddOrganizationFields1746000000000.projectRoles)
    :: ("project", AddOrganizationFields1746000000000.organizationName)
    :: schema in
  AddOrganizationFields1746000000000.up ListSchema.t string
    ListSchema.addColumn schema
  = (migrated, None)
  /\ AddOrganizationFields1746000000000.down ListSchema.t string
       ListSchema.dropColumn migrated
     = (schema, None).
Proof.
  cbv zeta. split; [reflexivity |].
  apply (down_undoes_up ListSchema.t string ListSchema.addColumn
           ListSchema.dropColumn _ _ ListSchema_drop_added).
  reflexivity.
Defined.
